(** * Error translation layer of chat-bot

    A shallow embedding of [src/ext/errors/base_errors.py] and of the
    flattener of [src/errors.py], with the properties of the error
    dictionary flattener and of the construction of [HTTPException] and
    [RateLimited].

    Python values are dynamically typed, so the embedding works over one
    type [value] of JSON-like data and makes every operation that can raise
    return a [result].  Dictionaries keep their insertion order, which decides
    the order of the lines of the final text: they are association lists. *)

From Stdlib Require Import List String Ascii ZArith Lia Bool.
From Stdlib Require Import Floats.SpecFloat.
From Stdlib Require Import Numbers.DecimalString.
Import ListNotations.
Local Open Scope string_scope.
Local Open Scope Z_scope.

(** ** Python values *)

Set Warnings "-register-all".

(** What [json.loads] can produce.  A [str] is kept as its string of bytes;
    no operation below looks inside a character. *)
Inductive value : Type :=
| VNone
| VBool (b : bool)
| VInt (z : Z)
| VFloat (f : spec_float)
| VStr (s : string)
| VList (l : list value)
| VDict (d : list (string * value)).

Definition dict := list (string * value).

(** The exceptions the code under study can raise. *)
Inductive pyexc : Type :=
| KeyError
| AttributeError
| TypeError.

Inductive result (A : Type) : Type :=
| Ok (a : A)
| Raise (e : pyexc).

Arguments Ok {A} a.
Arguments Raise {A} e.

Definition bind {A B : Type} (r : result A) (k : A -> result B) : result B :=
  match r with
  | Ok a => k a
  | Raise e => Raise e
  end.

Notation "x <- r ;; k" := (bind r (fun x => k))
  (at level 61, r at next level, right associativity).

Fixpoint mapM {A B : Type} (f : A -> result B) (l : list A) : result (list B) :=
  match l with
  | [] => Ok []
  | x :: l' => y <- f x ;; ys <- mapM f l' ;; Ok (y :: ys)
  end.

(** ** Builtins *)

Definition is_dict (v : value) : bool :=
  match v with VDict _ => true | _ => false end.

Definition is_str (v : value) : bool :=
  match v with VStr _ => true | _ => false end.

Definition float_is_zero (f : spec_float) : bool :=
  match f with S754_zero _ => true | _ => false end.

(** [bool(v)]: the truth value of [v] in an [if] or an [or]. *)
Definition truthy (v : value) : bool :=
  match v with
  | VNone => false
  | VBool b => b
  | VInt z => negb (z =? 0)
  | VFloat f => negb (float_is_zero f)
  | VStr s => negb (String.length s =? 0)%nat
  | VList l => negb (Nat.eqb (List.length l) 0)
  | VDict d => negb (Nat.eqb (List.length d) 0)
  end.

(** [a or b]. *)
Definition py_or (a b : value) : value := if truthy a then a else b.

(** [len(v)]. *)
Definition py_len (v : value) : result nat :=
  match v with
  | VStr s => Ok (String.length s)
  | VList l => Ok (List.length l)
  | VDict d => Ok (List.length d)
  | _ => Raise TypeError
  end.

(** [a + b] where [b] is a [str]: only a [str] can be put in front of it. *)
Definition py_add_str (a : value) (b : string) : result value :=
  match a with
  | VStr s => Ok (VStr (s ++ b))
  | _ => Raise TypeError
  end.

(** [sep.join(l)] on strings. *)
Fixpoint join (sep : string) (l : list string) : string :=
  match l with
  | [] => ""
  | [s] => s
  | s :: l' => s ++ sep ++ join sep l'
  end.

(** *** Dictionaries *)

Fixpoint dict_lookup (k : string) (d : dict) : option value :=
  match d with
  | [] => None
  | (k', v) :: d' => if String.eqb k k' then Some v else dict_lookup k d'
  end.

(** [d[k]]. *)
Definition dict_getitem (d : dict) (k : string) : result value :=
  match dict_lookup k d with
  | Some v => Ok v
  | None => Raise KeyError
  end.

(** [d.get(k, default)]. *)
Definition dict_get (d : dict) (k : string) (default : value) : value :=
  match dict_lookup k d with
  | Some v => v
  | None => default
  end.

(** [d[k] = v]: a key that is there keeps its place, a new one goes last. *)
Fixpoint dict_set (d : dict) (k : string) (v : value) : dict :=
  match d with
  | [] => [(k, v)]
  | (k', v') :: d' =>
      if String.eqb k k' then (k', v) :: d' else (k', v') :: dict_set d' k v
  end.

(** [dict(items)]. *)
Definition dict_from_items (items : list (string * value)) : dict :=
  fold_left (fun d kv => dict_set d (fst kv) (snd kv)) items [].

(** [d.items()]. *)
Definition dict_items (d : dict) : list (string * value) := d.

(** A [dict] of the interpreter never holds a key twice. *)
Definition dict_wf (d : dict) : Prop := NoDup (map fst d).

(** [x.get(k, default)] on any value: only a [dict] has the method. *)
Definition py_get (x : value) (k : string) (default : value) : result value :=
  match x with
  | VDict d => Ok (dict_get d k default)
  | _ => Raise AttributeError
  end.

(** [iter(v)], as the list of what the iteration yields: the elements of a
    list, the keys of a dict, the characters of a string. *)
Definition py_iter (v : value) : result (list value) :=
  match v with
  | VList l => Ok l
  | VDict d => Ok (map (fun kv => VStr (fst kv)) d)
  | VStr s => Ok (map (fun c => VStr (String c EmptyString)) (list_ascii_of_string s))
  | _ => Raise TypeError
  end.

Definition as_str (v : value) : result string :=
  match v with
  | VStr s => Ok s
  | _ => Raise TypeError
  end.

(** [sep.join(gen)]: the generator is run to its end first, then every item
    has to be a [str]. *)
Definition py_join (sep : string) (gen : result (list value)) : result string :=
  xs <- gen ;;
  ss <- mapM as_str xs ;;
  Ok (join sep ss).

(** *** Conversion to text *)

Definition nl : string := String (ascii_of_nat 10) EmptyString.

Definition string_of_Z (z : Z) : string := NilZero.string_of_int (Z.to_int z).

(** What the interpreter prints for a string between quotes and for a
    float is the work of the runtime, not of this repository: both are taken
    as given. *)
Class PyRuntime : Type := {
  repr_str : string -> string;
  repr_float : spec_float -> string
}.

(** [repr(v)]. *)
Fixpoint py_repr {rt : PyRuntime} (v : value) : string :=
  match v with
  | VNone => "None"
  | VBool b => if b then "True" else "False"
  | VInt z => string_of_Z z
  | VFloat f => repr_float f
  | VStr s => repr_str s
  | VList l => "[" ++ join ", " (map py_repr l) ++ "]"
  | VDict d =>
      "{" ++ join ", "
               ((fix pairs (d : list (string * value)) : list string :=
                   match d with
                   | [] => []
                   | (k, x) :: d' => (repr_str k ++ ": " ++ py_repr x) :: pairs d'
                   end) d) ++ "}"
  end.

(** [str(v)], which is also what ['%s' % v] and ['{}'.format(v)] print. *)
Definition py_str {rt : PyRuntime} (v : value) : string :=
  match v with
  | VStr s => s
  | _ => py_repr v
  end.

(** [n / d] rounded to the nearest integer, ties to even ([0 <= n], [0 < d]). *)
Definition round_half_even (n d : Z) : Z :=
  let q := n / d in
  let r := n mod d in
  if 2 * r <? d then q
  else if d <? 2 * r then q + 1
  else if Z.even q then q else q + 1.

Definition two_digits (n : Z) : string :=
  if n <? 10 then "0" ++ string_of_Z n else string_of_Z n.

(** The digits of [m * 2^e] with two decimals, correctly rounded. *)
Definition fixed2 (m : positive) (e : Z) : string :=
  let hundredths :=
    if 0 <=? e then Zpos m * 100 * 2 ^ e
    else round_half_even (Zpos m * 100) (2 ^ (- e)) in
  string_of_Z (hundredths / 100) ++ "." ++ two_digits (hundredths mod 100).

Definition sign_str (s : bool) : string := if s then "-" else "".

(** [f'{x:.2f}'] on a float. *)
Definition format_2f (x : spec_float) : string :=
  match x with
  | S754_zero s => sign_str s ++ "0.00"
  | S754_infinity s => sign_str s ++ "inf"
  | S754_nan => "nan"
  | S754_finite s m e => sign_str s ++ fixed2 m e
  end.

(** [needle in hay] on strings. *)
Fixpoint contains (needle hay : string) : bool :=
  if String.prefix needle hay then true
  else match hay with
       | EmptyString => false
       | String _ hay' => contains needle hay'
       end.

(** *** Objects *)

(** A response of the HTTP client: the object is read through its
    attributes only, so it is its attribute dictionary. *)
Definition response := dict.

(** [o.name]. *)
Definition getattr (o : response) (name : string) : result value :=
  match dict_lookup name o with
  | Some v => Ok v
  | None => Raise AttributeError
  end.

(** An attribute of an exception object holds a value or the response. *)
Inductive attr : Type :=
| AValue (v : value)
| AResponse (r : response).

Fixpoint attr_lookup (name : string) (d : list (string * attr)) : option attr :=
  match d with
  | [] => None
  | (n, a) :: d' => if String.eqb name n then Some a else attr_lookup name d'
  end.

(** [self.name = a] on the [__dict__] of the object. *)
Fixpoint attr_set (d : list (string * attr)) (name : string) (a : attr)
  : list (string * attr) :=
  match d with
  | [] => [(name, a)]
  | (n, a') :: d' =>
      if String.eqb name n then (n, a) :: d' else (n, a') :: attr_set d' name a
  end.

(** ** The module [src/ext/errors/base_errors.py] *)

Module BaseErrors.

(** [key + '.' + k if key else k]. *)
Definition new_key (key k : string) : string :=
  if truthy (VStr key) then key ++ "." ++ k else k.

(** [' '.join(x.get('message', '') for x in _errors)]. *)
Definition join_messages (_errors : value) : result string :=
  py_join " " (xs <- py_iter _errors ;;
               mapM (fun x => py_get x "message" (VStr "")) xs).

(** [_flatten_error_dict(d, key)].  The [for] loop over [d.items()] is the
    inner [loop]; it returns what the list [items] holds at the end.
    [d.items()] raises on a value that is not a dict.  The limit the
    interpreter puts on the depth of recursion is not modelled. *)
Fixpoint _flatten_error_dict (d : value) (key : string) {struct d} : result dict :=
  match d with
  | VDict entries =>
      items <-
        (fix loop (es : list (string * value)) : result (list (string * value)) :=
           match es with
           | [] => Ok []
           | (k, v) :: es' =>
               here <-
                 (match v with
                  | VDict vd =>
                      match dict_getitem vd "_errors" with
                      | Raise KeyError =>
                          sub <- _flatten_error_dict v (new_key key k) ;;
                          Ok (dict_items sub)
                      | Raise e => Raise e
                      | Ok _errors =>
                          msg <- join_messages _errors ;;
                          Ok [(new_key key k, VStr msg)]
                      end
                  | _ => Ok [(new_key key k, v)]
                  end) ;;
               rest <- loop es' ;;
               Ok (here ++ rest)%list
           end) entries ;;
      Ok (dict_from_items items)
  | _ => Raise AttributeError
  end.

(** One turn of the loop: what one pair [(k, v)] adds to [items]. *)
Definition flatten_entry (key : string) (kv : string * value)
  : result (list (string * value)) :=
  let (k, v) := kv in
  match v with
  | VDict vd =>
      match dict_getitem vd "_errors" with
      | Raise KeyError =>
          sub <- _flatten_error_dict v (new_key key k) ;;
          Ok (dict_items sub)
      | Raise e => Raise e
      | Ok _errors =>
          msg <- join_messages _errors ;;
          Ok [(new_key key k, VStr msg)]
      end
  | _ => Ok [(new_key key k, v)]
  end.

(** The whole loop: the list [items] after the last turn. *)
Fixpoint flatten_items (key : string) (es : list (string * value))
  : result (list (string * value)) :=
  match es with
  | [] => Ok []
  | kv :: es' =>
      here <- flatten_entry key kv ;;
      rest <- flatten_items key es' ;;
      Ok (here ++ rest)%list
  end.

(** *** The exception classes *)

Inductive pyclass : Type :=
| Exception
| ChatBotException
| ClientException
| GatewayNotFound
| HTTPException
| RateLimited
| Forbidden
| ServerError
| InvalidData
| LoginFailure
| ConnectionClose.

(** The class named between the parentheses of each [class] statement. *)
Definition base (c : pyclass) : option pyclass :=
  match c with
  | Exception => None
  | ChatBotException => Some Exception
  | ClientException => Some ChatBotException
  | GatewayNotFound => Some ChatBotException
  | HTTPException => Some ChatBotException
  | RateLimited => Some ChatBotException
  | Forbidden => Some HTTPException
  | ServerError => Some HTTPException
  | InvalidData => Some ClientException
  | LoginFailure => Some ClientException
  | ConnectionClose => Some ClientException
  end.

Definition pyclass_eqb (c d : pyclass) : bool :=
  match c, d with
  | Exception, Exception
  | ChatBotException, ChatBotException
  | ClientException, ClientException
  | GatewayNotFound, GatewayNotFound
  | HTTPException, HTTPException
  | RateLimited, RateLimited
  | Forbidden, Forbidden
  | ServerError, ServerError
  | InvalidData, InvalidData
  | LoginFailure, LoginFailure
  | ConnectionClose, ConnectionClose => true
  | _, _ => false
  end.

(** The classes from [c] up to the root; no chain is longer than four. *)
Fixpoint ancestors (fuel : nat) (c : pyclass) : list pyclass :=
  c :: match fuel with
       | O => []
       | S fuel' => match base c with
                    | Some b => ancestors fuel' b
                    | None => []
                    end
       end.

(** [issubclass(c, d)]. *)
Definition issubclass (c d : pyclass) : bool :=
  existsb (pyclass_eqb d) (ancestors 4 c).

(** An exception object: its class, its [__dict__] in the order in which
    [__init__] filled it, and the [args] given to [Exception.__init__]. *)
Record instance : Type := {
  inst_class : pyclass;
  inst_dict : list (string * attr);
  inst_args : list value
}.

Definition new_instance (c : pyclass) : instance :=
  {| inst_class := c; inst_dict := []; inst_args := [] |}.

Definition setattr (self : instance) (name : string) (a : attr) : instance :=
  {| inst_class := inst_class self;
     inst_dict := attr_set (inst_dict self) name a;
     inst_args := inst_args self |}.

(** [super().__init__(message)]. *)
Definition Exception_init (self : instance) (message : string) : instance :=
  {| inst_class := inst_class self;
     inst_dict := inst_dict self;
     inst_args := [VStr message] |}.

(** What every exception object has from [BaseException], besides the
    names in double underscores. *)
Definition builtin_attrs : list string := ["args"; "with_traceback"; "add_note"].

(** [hasattr(self, name)]. *)
Definition hasattr (self : instance) (name : string) : bool :=
  match attr_lookup name (inst_dict self) with
  | Some _ => true
  | None => existsb (String.eqb name) builtin_attrs
  end.

(** [self.name] for an attribute set by [__init__] to a value. *)
Definition field (self : instance) (name : string) : option value :=
  match attr_lookup name (inst_dict self) with
  | Some (AValue v) => Some v
  | _ => None
  end.

(** ['In %s: %s' % t] for a pair [t] of [errors.items()]. *)
Definition format_pair {rt : PyRuntime} (t : string * value) : string :=
  "In " ++ fst t ++ ": " ++ py_str (snd t).

(** [self.name], read back inside [__init__]. *)
Definition getfield (self : instance) (name : string) : result value :=
  match field self name with
  | Some v => Ok v
  | None => Raise AttributeError
  end.

(** Lines 98 to 105: the [if]/[elif]/[else] that sets [self.status]. *)
Definition set_status (self : instance) (response : response) : result instance :=
  status_code <- getattr response "status_code" ;;
  if truthy status_code then Ok (setattr self "status" (AValue status_code))
  else
    status <- getattr response "status" ;;
    if truthy status then Ok (setattr self "status" (AValue status))
    else Ok (setattr self "status" (AValue (VInt 0))).

(** Lines 109 to 127: [self.code] and [self.text] from [message]. *)
Definition set_code_text {rt : PyRuntime} (self : instance) (message : value)
  : result instance :=
  match message with
  | VDict m =>
      let self := setattr self "code" (AValue (dict_get m "code" (VInt 0))) in
      let base := dict_get m "message" (VStr "") in
      let errors := dict_get m "errors" VNone in
      let self := setattr self "_errors" (AValue errors) in
      if truthy errors then
        errors <- _flatten_error_dict errors "" ;;
        let helpful := join nl (map format_pair (dict_items errors)) in
        base_nl <- py_add_str base nl ;;
        text <- py_add_str base_nl helpful ;;
        Ok (setattr self "text" (AValue text))
      else Ok (setattr self "text" (AValue base))
  | _ =>
      let self := setattr self "text" (AValue (py_or message (VStr ""))) in
      Ok (setattr self "code" (AValue (VInt 0)))
  end.

(** Lines 129 to 134: the text given to [Exception.__init__], which is
    [fmt.format(self.response, self.code, self.text)]. *)
Definition set_args {rt : PyRuntime} (self : instance) (response : response)
  : result instance :=
  text <- getfield self "text" ;;
  n <- py_len text ;;
  code <- getfield self "code" ;;
  status_code <- getattr response "status_code" ;;
  reason <- getattr response "reason" ;;
  let shown :=
    py_str status_code ++ " " ++ py_str reason
      ++ " (error code: " ++ py_str code ++ ")"
      ++ (if Nat.eqb n 0 then "" else ": " ++ py_str text) in
  Ok (Exception_init self shown).

(** [HTTPException.__init__(self, response, message)]. *)
Definition HTTPException_init {rt : PyRuntime} (response : response) (message : value)
  : result instance :=
  let self := new_instance HTTPException in
  let self := setattr self "response" (AResponse response) in
  self <- set_status self response ;;
  self <- set_code_text self message ;;
  set_args self response.

(** [RateLimited.__init__(self, retry_after)], on the [float] of its
    signature. *)
Definition RateLimited_init (retry_after : spec_float) : instance :=
  let self := new_instance RateLimited in
  let self := setattr self "retry_after" (AValue (VFloat retry_after)) in
  Exception_init self ("Too many requests. Retry in " ++ format_2f retry_after).

(** *** The other constructors *)

(** The number of parameters, after [self], of the [__init__] that a class
    writes itself; [None] for a class that writes none.  [code] of
    [ConnectionClose] is given by keyword only. *)
Definition own_init (c : pyclass) : option nat :=
  match c with
  | Exception | ChatBotException | ClientException => None
  | GatewayNotFound => Some 0%nat
  | HTTPException | Forbidden | ServerError | InvalidData | LoginFailure => Some 2%nat
  | RateLimited | ConnectionClose => Some 1%nat
  end.

Fixpoint first_init (cs : list pyclass) : option nat :=
  match cs with
  | [] => None
  | c :: cs' =>
      match own_init c with
      | Some n => Some n
      | None => first_init cs'
      end
  end.

(** [super().__init__(...)] written in class [c] with [nargs] arguments.  The
    call goes to the first class above [c] that writes an [__init__] and
    raises when it is not given as many arguments as that one has
    parameters; with none above, it goes to [Exception.__init__], which takes
    any.  No call of the file reaches an [__init__] of the file with the
    right number. *)
Definition super_init_accepts (c : pyclass) (nargs : nat) : result unit :=
  match first_init (tl (ancestors 4 c)) with
  | Some n => if Nat.eqb n nargs then Ok tt else Raise TypeError
  | None => Ok tt
  end.

(** [fmt.format(self.response, self.code, self.text)] after the test of
    [len(self.text)], for a [fmt] that starts with ['{0.status_attr}']. *)
Definition shown_message {rt : PyRuntime} (status_attr : string) (self : instance)
           (response : response) : result string :=
  text <- getfield self "text" ;;
  n <- py_len text ;;
  code <- getfield self "code" ;;
  status <- getattr response status_attr ;;
  reason <- getattr response "reason" ;;
  Ok (py_str status ++ " " ++ py_str reason
        ++ " (error code: " ++ py_str code ++ ")"
        ++ (if Nat.eqb n 0 then "" else ": " ++ py_str text)).

(** The [__init__] of [Forbidden], [ServerError], [InvalidData] and
    [LoginFailure]: each repeats the lines of [HTTPException.__init__]; they
    differ by the class and by the attribute that [fmt] names first. *)
Definition init_like {rt : PyRuntime} (c : pyclass) (status_attr : string)
           (response : response) (message : value) : result instance :=
  let self := new_instance c in
  let self := setattr self "response" (AResponse response) in
  self <- set_status self response ;;
  self <- set_code_text self message ;;
  shown <- shown_message status_attr self response ;;
  _ <- super_init_accepts c 1 ;;
  Ok (Exception_init self shown).

(** [fmt = '{0.status} {0.reason} (error code: {1})'] *)
Definition Forbidden_init {rt : PyRuntime} := init_like Forbidden "status".

(** [fmt = '{0.status_code} {0.reason} (error code: {1})'] *)
Definition ServerError_init {rt : PyRuntime} := init_like ServerError "status_code".

(** [fmt = '{0.status} {0.reason} (error code: {1})'] *)
Definition InvalidData_init {rt : PyRuntime} := init_like InvalidData "status".

(** [fmt = '{0.status} {0.reason} (error code: {1})'] *)
Definition LoginFailure_init {rt : PyRuntime} := init_like LoginFailure "status".

(** [ConnectionClose.__init__(self, socket, *, code=None)]; the socket is
    read through [close_code] only. *)
Definition ConnectionClose_init {rt : PyRuntime} (socket : response) (code : value)
  : result instance :=
  let self := new_instance ConnectionClose in
  code <-
    (if truthy code then Ok code
     else
       close_code <- getattr socket "close_code" ;;
       Ok (py_or close_code (VInt (-1)))) ;;
  let self := setattr self "code" (AValue code) in
  let self := setattr self "reason" (AValue (VStr "")) in
  _ <- super_init_accepts ConnectionClose 1 ;;
  Ok (Exception_init self ("WebSocket closed with " ++ py_str code)).

End BaseErrors.

(** ** The flattener of [src/errors.py] *)

Module Errors.

(** [key + '.' + k if key else k]. *)
Definition new_key (key k : string) : string :=
  if truthy (VStr key) then key ++ "." ++ k else k.

(** [' '.join(x.get('message', '') for x in _errors)]. *)
Definition join_messages (_errors : value) : result string :=
  py_join " " (xs <- py_iter _errors ;;
               mapM (fun x => py_get x "message" (VStr "")) xs).

(** [_flatten_error_dict(d, key)] as [src/errors.py] writes it. *)
Fixpoint _flatten_error_dict (d : value) (key : string) {struct d} : result dict :=
  match d with
  | VDict entries =>
      items <-
        (fix loop (es : list (string * value)) : result (list (string * value)) :=
           match es with
           | [] => Ok []
           | (k, v) :: es' =>
               here <-
                 (match v with
                  | VDict vd =>
                      match dict_getitem vd "_errors" with
                      | Raise KeyError =>
                          sub <- _flatten_error_dict v (new_key key k) ;;
                          Ok (dict_items sub)
                      | Raise e => Raise e
                      | Ok _errors =>
                          msg <- join_messages _errors ;;
                          Ok [(new_key key k, VStr msg)]
                      end
                  | _ => Ok [(new_key key k, v)]
                  end) ;;
               rest <- loop es' ;;
               Ok (here ++ rest)%list
           end) entries ;;
      Ok (dict_from_items items)
  | _ => Raise AttributeError
  end.

(** [d.item()]: a dict has no method of that name. *)
Definition dict_item (d : dict) : result (list (string * value)) :=
  Raise AttributeError.

(** [HTTPException.__init__(self, response, message)] as [src/errors.py]
    writes it: [status] is read from [response.status], the pairs from
    [errors.item()], and the text with errors goes to [self.test]. *)
Definition HTTPException_init {rt : PyRuntime} (response : response) (message : value)
  : result BaseErrors.instance :=
  let self := BaseErrors.new_instance BaseErrors.HTTPException in
  let self := BaseErrors.setattr self "response" (AResponse response) in
  status <- getattr response "status" ;;
  let self := BaseErrors.setattr self "status" (AValue status) in
  self <-
    (match message with
     | VDict m =>
         let self := BaseErrors.setattr self "code" (AValue (dict_get m "code" (VInt 0))) in
         let base := dict_get m "message" (VStr "") in
         let errors := dict_get m "errors" VNone in
         let self := BaseErrors.setattr self "_errors" (AValue errors) in
         if truthy errors then
           errors <- _flatten_error_dict errors "" ;;
           pairs <- dict_item errors ;;
           let helpful := join nl (map BaseErrors.format_pair pairs) in
           base_nl <- py_add_str base nl ;;
           text <- py_add_str base_nl helpful ;;
           Ok (BaseErrors.setattr self "test" (AValue text))
         else Ok (BaseErrors.setattr self "text" (AValue base))
     | _ =>
         let self := BaseErrors.setattr self "text" (AValue (py_or message (VStr ""))) in
         Ok (BaseErrors.setattr self "code" (AValue (VInt 0)))
     end) ;;
  shown <- BaseErrors.shown_message "status" self response ;;
  Ok (BaseErrors.Exception_init self shown).

End Errors.

(** ** Inputs of the examples *)

(** [{"a": {"_errors": [{"message": "bad"}, {"message": "worse"}]}}] *)
Definition two_messages : value :=
  VDict [("a", VDict [("_errors", VList [VDict [("message", VStr "bad")];
                                          VDict [("message", VStr "worse")]])])].

(** [{"a": {"b": "x"}}] *)
Definition one_level : value := VDict [("a", VDict [("b", VStr "x")])].

(** The [message] of a record of an [_errors] list, [''] when it has none. *)
Definition message_of (r : dict) : string :=
  match dict_get r "message" (VStr "") with
  | VStr s => s
  | _ => ""
  end.

(** Every record of the list has a [str] under [message], or no [message]. *)
Definition messages_are_str (recs : list dict) : bool :=
  forallb (fun r => is_str (dict_get r "message" (VStr ""))) recs.

(** No record of the list has a [message]. *)
Definition no_message (recs : list dict) : bool :=
  forallb (fun r => match dict_lookup "message" r with
                    | None => true
                    | Some _ => false
                    end) recs.

(** No value of the mapping is itself a mapping. *)
Definition is_flat (d : dict) : bool := forallb (fun kv => negb (is_dict (snd kv))) d.

(** The body of the example:
    [{"code": 50035, "message": "Invalid Form Body",
      "errors": {"username": {"_errors": [{"message": "too short"}]}}}] *)
Definition invalid_form_body : value :=
  VDict [("code", VInt 50035);
         ("message", VStr "Invalid Form Body");
         ("errors", VDict [("username",
                            VDict [("_errors", VList [VDict [("message", VStr "too short")]])])])].

(** A response as [requests] gives it: [status_code] and [reason]. *)
Definition requests_response : response :=
  [("status_code", VInt 400); ("reason", VStr "Bad Request")].

(** A response as [aiohttp] gives it: [status] and [reason]. *)
Definition aiohttp_response : response :=
  [("status", VInt 403); ("reason", VStr "Forbidden")].

(** [1.5] as a binary64 float. *)
Definition one_and_a_half : spec_float := S754_finite false 6755399441055744 (-52).

(** The attributes [HTTPException.__init__] reads are there: [status_code],
    [status] too when [status_code] is falsy, and [reason]. *)
Definition readable (resp : response) : bool :=
  match dict_lookup "status_code" resp, dict_lookup "reason" resp with
  | Some status_code, Some _ =>
      truthy status_code
      || match dict_lookup "status" resp with Some _ => true | None => false end
  | _, _ => false
  end.

(** A runtime to run the examples with; none of them prints a float or a
    string between quotes. *)
Definition sample_runtime : PyRuntime :=
  {| repr_str := fun s => "'" ++ s ++ "'"; repr_float := fun _ => "nan" |}.

Fixpoint spaces (n : nat) : string :=
  match n with
  | O => ""
  | S n' => " " ++ spaces n'
  end.

(** ** Shapes of error trees *)

(** An [_errors] value as the API sends it: a list of records whose
    [message], when there is one, is a string. *)
Definition wf_records (e : value) : bool :=
  match e with
  | VList l =>
      forallb (fun x => match x with
                        | VDict r => is_str (dict_get r "message" (VStr ""))
                        | _ => false
                        end) l
  | _ => false
  end.


(** The paths of a flattened mapping all start with [p]. *)
Definition paths_start_with (p : string) (d : dict) : bool :=
  forallb (fun kv => String.prefix p (fst kv)) d.

(** A response that has [status_code], [status] and [reason]. *)
Definition both_status_response : response :=
  [("status_code", VInt 401); ("status", VInt 401); ("reason", VStr "Unauthorized")].

(** A socket that was closed with the code 1006. *)
Definition closed_socket : response := [("close_code", VInt 1006)].

(** What [' '.join(x.get('message', '') for x in _errors)] comes to, by the
    shape of [_errors]: the generator raises on what cannot be iterated and on
    the first item without [get]; the join then raises on a message that is
    not a string. *)
Definition errors_marker_outcome (e : value) : result string :=
  match e with
  | VList l =>
      if forallb is_dict l then
        if wf_records e then
          Ok (join " " (map (fun x => match x with
                                      | VDict r => message_of r
                                      | _ => ""
                                      end) l))
        else Raise TypeError
      else Raise AttributeError
  | VStr s => if (String.length s =? 0)%nat then Ok "" else Raise AttributeError
  | VDict d => if Nat.eqb (List.length d) 0 then Ok "" else Raise AttributeError
  | _ => Raise TypeError
  end.

(** ** The loop of the flattener *)

Section Flattener.

Import BaseErrors.

(** The function is its loop followed by [dict(items)]. *)
Lemma flatten_unfold (es : list (string * value)) (key : string) :
  _flatten_error_dict (VDict es) key =
  (items <- flatten_items key es ;; Ok (dict_from_items items)).
Proof.
  cbn [_flatten_error_dict]. f_equal.
  induction es as [| [k v] es IH]; [reflexivity |].
  cbn [flatten_items flatten_entry]. rewrite <- IH. reflexivity.
Qed.

(** The turns of the loop add to [items] one after the other. *)
Lemma flatten_items_app (key : string) (pre post : list (string * value)) :
  flatten_items key (pre ++ post) =
  (i1 <- flatten_items key pre ;; i2 <- flatten_items key post ;; Ok (i1 ++ i2)%list).
Proof.
  induction pre as [| kv pre IH]; cbn [flatten_items app].
  - destruct (flatten_items key post); reflexivity.
  - destruct (flatten_entry key kv) as [here |]; [| reflexivity].
    cbn [bind]. rewrite IH.
    destruct (flatten_items key pre) as [i1 |]; [| reflexivity].
    cbn [bind]. destruct (flatten_items key post) as [i2 |]; [| reflexivity].
    cbn [bind]. now rewrite app_assoc.
Qed.

(** What the pair at some place of the mapping adds sits between what the
    pairs before it and the pairs after it add. *)
Lemma flatten_items_middle (key : string) (pre post : list (string * value))
      (kv : string * value) (here : list (string * value)) :
  flatten_entry key kv = Ok here ->
  flatten_items key (pre ++ kv :: post) =
  (i1 <- flatten_items key pre ;; i2 <- flatten_items key post ;;
   Ok (i1 ++ here ++ i2)%list).
Proof.
  intros Hkv. rewrite flatten_items_app. cbn [flatten_items]. rewrite Hkv.
  destruct (flatten_items key pre) as [i1 |]; [| reflexivity].
  destruct (flatten_items key post) as [i2 |]; reflexivity.
Qed.

Lemma new_key_spelled (key k : string) :
  new_key key k = if String.eqb key "" then k else key ++ "." ++ k.
Proof. unfold new_key. destruct key; reflexivity. Qed.

Lemma dict_set_fresh (d : dict) (k : string) (v : value) :
  ~ In k (map fst d) -> dict_set d k v = (d ++ [(k, v)])%list.
Proof.
  induction d as [| [k' v'] d IH]; intros Hk; [reflexivity |].
  cbn [dict_set app]. destruct (String.eqb_spec k k') as [-> | _].
  - exfalso. apply Hk. now left.
  - rewrite IH; [reflexivity |]. intros Hin. apply Hk. now right.
Qed.

Lemma fold_dict_set_fresh (l acc : dict) :
  NoDup (map fst (acc ++ l)) ->
  fold_left (fun d kv => dict_set d (fst kv) (snd kv)) l acc = (acc ++ l)%list.
Proof.
  revert acc. induction l as [| [k v] l IH]; intros acc Hnd; cbn [fold_left fst snd].
  - now rewrite app_nil_r.
  - assert (Hfresh : ~ In k (map fst acc)).
    { rewrite map_app in Hnd. cbn [map fst] in Hnd.
      apply NoDup_remove_2 in Hnd. intros Hin. apply Hnd.
      apply in_or_app. now left. }
    rewrite (dict_set_fresh _ _ _ Hfresh), IH; rewrite <- app_assoc; [reflexivity | exact Hnd].
Qed.

(** [dict(d.items())] is [d] again. *)
Lemma dict_from_items_wf (d : dict) : dict_wf d -> dict_from_items d = d.
Proof. intros Hwf. unfold dict_from_items. now rewrite fold_dict_set_fresh. Qed.

Lemma flatten_items_flat (es : list (string * value)) :
  is_flat es = true -> flatten_items "" es = Ok es.
Proof.
  induction es as [| [k v] es IH]; [reflexivity |].
  cbn [is_flat forallb snd]. intros [Hv Hes]%andb_prop.
  cbn [flatten_items]. fold (is_flat es) in Hes. rewrite (IH Hes).
  destruct v; try discriminate Hv; reflexivity.
Qed.

Lemma mapM_get_message (recs : list dict) :
  mapM (fun x => py_get x "message" (VStr "")) (map VDict recs) =
  Ok (map (fun r => dict_get r "message" (VStr "")) recs).
Proof.
  induction recs as [| r recs IH]; [reflexivity |].
  cbn [mapM map py_get bind]. now rewrite IH.
Qed.

Lemma mapM_as_str (recs : list dict) :
  messages_are_str recs = true ->
  mapM as_str (map (fun r => dict_get r "message" (VStr "")) recs) =
  Ok (map message_of recs).
Proof.
  induction recs as [| r recs IH]; [reflexivity |].
  cbn [messages_are_str forallb]. intros [Hr Hrecs]%andb_prop.
  cbn [mapM map]. fold (messages_are_str recs) in Hrecs. rewrite (IH Hrecs).
  unfold message_of. destruct (dict_get r "message" (VStr "")); try discriminate Hr.
  reflexivity.
Qed.

(** The join of the messages of a list of well-formed records. *)
Lemma join_messages_records (recs : list dict) :
  messages_are_str recs = true ->
  join_messages (VList (map VDict recs)) = Ok (join " " (map message_of recs)).
Proof.
  intros Hstr. unfold join_messages, py_join. cbn [py_iter bind].
  rewrite mapM_get_message. cbn [bind]. now rewrite mapM_as_str.
Qed.

Lemma no_message_get (r : dict) :
  dict_lookup "message" r = None -> dict_get r "message" (VStr "") = VStr "".
Proof. unfold dict_get. now intros ->. Qed.

Lemma no_message_are_str (recs : list dict) :
  no_message recs = true ->
  messages_are_str recs = true /\ map message_of recs = repeat "" (List.length recs).
Proof.
  induction recs as [| r recs IH]; [split; reflexivity |].
  cbn [no_message forallb]. intros [Hr Hrecs]%andb_prop.
  fold (no_message recs) in Hrecs. destruct (IH Hrecs) as [Hstr Hmap].
  destruct (dict_lookup "message" r) eqn:Hlook; [discriminate Hr |].
  split.
  - cbn [messages_are_str forallb]. fold (messages_are_str recs).
    now rewrite (no_message_get r Hlook), Hstr.
  - cbn [map repeat List.length]. rewrite Hmap. unfold message_of.
    now rewrite (no_message_get r Hlook).
Qed.

(** Joining [n] empty strings leaves the [n - 1] separators. *)
Lemma join_empty_strings (n : nat) : join " " (repeat "" n) = spaces (n - 1).
Proof.
  induction n as [| n IH]; [reflexivity |].
  destruct n as [| n]; [reflexivity |].
  change (join " " (repeat "" (S (S n)))) with (" " ++ join " " (repeat "" (S n))).
  rewrite IH. cbn [Nat.sub]. now rewrite Nat.sub_0_r.
Qed.

Lemma spaces_empty (n : nat) : spaces n = "" <-> n = O.
Proof. destruct n; cbn [spaces append]; split; intros H; congruence. Qed.

(** The entry of a mapping that holds [_errors]. *)
Lemma flatten_errors_marker_aux (key k : string) (vd : dict) (recs : list dict) :
  dict_lookup "_errors" vd = Some (VList (map VDict recs)) ->
  messages_are_str recs = true ->
  flatten_entry key (k, VDict vd) =
    Ok [(new_key key k, VStr (join " " (map message_of recs)))]
  /\ _flatten_error_dict (VDict [(k, VDict vd)]) key =
    Ok [(new_key key k, VStr (join " " (map message_of recs)))].
Proof.
  intros Hlook Hstr.
  assert (Hentry : flatten_entry key (k, VDict vd) =
                   Ok [(new_key key k, VStr (join " " (map message_of recs)))]).
  { cbn [flatten_entry]. unfold dict_getitem. rewrite Hlook.
    rewrite (join_messages_records recs Hstr). reflexivity. }
  split; [exact Hentry |].
  rewrite flatten_unfold. cbn [flatten_items]. rewrite Hentry. reflexivity.
Qed.

End Flattener.

(** ** The flattener: claims *)

Section FlattenerClaims.

Import BaseErrors.

(** C2: a mapping value [v] that holds the reserved key [_errors], a list of
    records whose [message] is a string when there is one, adds to the result
    one entry, at the dotted path of its key, whose value is the messages of
    the records joined by a space (a record without [message] counts as the
    empty string).  Nothing else of [v] is looked at: whatever [v] holds
    beside [_errors] leaves the entry as it is.  The entry sits between what
    the pairs before and after add, and a mapping made of this one pair
    flattens to this one entry; so [{"a": {"_errors": [{"message": "bad"},
    {"message": "worse"}]}}] flattens to [{"a": "bad worse"}]. *)
Theorem flatten_errors_marker (key k : string) (vd : dict) (recs : list dict)
        (pre post : list (string * value)) :
  dict_lookup "_errors" vd = Some (VList (map VDict recs)) ->
  messages_are_str recs = true ->
  let entry := (new_key key k, VStr (join " " (map message_of recs))) in
  flatten_entry key (k, VDict vd) = Ok [entry]
  /\ flatten_items key (pre ++ (k, VDict vd) :: post) =
     (i1 <- flatten_items key pre ;; i2 <- flatten_items key post ;;
      Ok (i1 ++ entry :: i2)%list)
  /\ _flatten_error_dict (VDict [(k, VDict vd)]) key = Ok [entry]
  /\ _flatten_error_dict two_messages "" = Ok [("a", VStr "bad worse")].
Proof.
  intros Hlook Hstr entry.
  destruct (flatten_errors_marker_aux key k vd recs Hlook Hstr) as [Hentry Hdict].
  repeat split.
  - exact Hentry.
  - exact (flatten_items_middle key pre post _ _ Hentry).
  - exact Hdict.
Qed.

Lemma flatten_errors_marker_witness :
  flatten_entry "errors" ("a", VDict [("_errors", VList [VDict [("message", VStr "bad")];
                                                     VDict []; VDict [("message", VStr "worse")]]);
                                      ("b", VDict [("_errors", VInt 1)])])
  = Ok [("errors.a", VStr "bad  worse")].
Proof.
  exact (proj1 (flatten_errors_marker "errors" "a"
                  [("_errors", VList [VDict [("message", VStr "bad")];
                                      VDict []; VDict [("message", VStr "worse")]]);
                   ("b", VDict [("_errors", VInt 1)])]
                  [[("message", VStr "bad")]; []; [("message", VStr "worse")]]
                  [] [] eq_refl eq_refl)).
Defined.

(** C3: a mapping value without the key [_errors] is flattened by a call of
    the flattener on it, with the path [prefix + "." + k] when the prefix is
    not empty and [k] when it is, and the pairs of the mapping returned are
    added to the result in their place; [{"a": {"b": "x"}}] flattens to
    [{"a.b": "x"}], and the empty mapping to the empty mapping. *)
Theorem flatten_nested_mapping (key k : string) (vd : dict)
        (pre post : list (string * value)) :
  dict_lookup "_errors" vd = None ->
  let nk := if String.eqb key "" then k else key ++ "." ++ k in
  flatten_entry key (k, VDict vd) = _flatten_error_dict (VDict vd) nk
  /\ _flatten_error_dict (VDict (pre ++ (k, VDict vd) :: post)) key =
     (i1 <- flatten_items key pre ;;
      sub <- _flatten_error_dict (VDict vd) nk ;;
      i2 <- flatten_items key post ;;
      Ok (dict_from_items (i1 ++ dict_items sub ++ i2)))
  /\ _flatten_error_dict one_level "" = Ok [("a.b", VStr "x")]
  /\ (forall prefix, _flatten_error_dict (VDict []) prefix = Ok []).
Proof.
  intros Hlook nk.
  assert (Hentry : flatten_entry key (k, VDict vd) = _flatten_error_dict (VDict vd) nk).
  { cbn [flatten_entry]. unfold dict_getitem. rewrite Hlook.
    rewrite new_key_spelled. fold nk.
    destruct (_flatten_error_dict (VDict vd) nk); reflexivity. }
  repeat split.
  - exact Hentry.
  - rewrite flatten_unfold, flatten_items_app. cbn [flatten_items].
    rewrite Hentry.
    destruct (flatten_items key pre) as [i1 |]; [| reflexivity].
    destruct (_flatten_error_dict (VDict vd) nk) as [sub |]; [| reflexivity].
    destruct (flatten_items key post) as [i2 |]; reflexivity.
Qed.

Lemma flatten_nested_mapping_witness :
  flatten_entry "form" ("a", VDict [("b", VStr "x")]) =
  _flatten_error_dict (VDict [("b", VStr "x")]) "form.a".
Proof.
  exact (proj1 (flatten_nested_mapping "form" "a" [("b", VStr "x")] [] [] eq_refl)).
Defined.

(** C6, as the code has it: a value [v] that is not a mapping goes to the
    result as it is, under the dotted path of its key, with no conversion to
    a string; the value of the entry is a string when [v] is one, and only
    then. *)
Theorem flatten_leaf_unchanged (key k : string) (v : value)
        (pre post : list (string * value)) :
  is_dict v = false ->
  flatten_entry key (k, v) = Ok [(new_key key k, v)]
  /\ flatten_items key (pre ++ (k, v) :: post) =
     (i1 <- flatten_items key pre ;; i2 <- flatten_items key post ;;
      Ok (i1 ++ (new_key key k, v) :: i2)%list)
  /\ _flatten_error_dict (VDict [(k, v)]) key = Ok [(new_key key k, v)].
Proof.
  intros Hv.
  assert (Hentry : flatten_entry key (k, v) = Ok [(new_key key k, v)]).
  { destruct v; try discriminate Hv; reflexivity. }
  repeat split.
  - exact Hentry.
  - exact (flatten_items_middle key pre post _ _ Hentry).
  - rewrite flatten_unfold. cbn [flatten_items]. rewrite Hentry. reflexivity.
Qed.

Lemma flatten_leaf_unchanged_witness :
  _flatten_error_dict (VDict [("retries", VInt 5)]) "limits" =
  Ok [("limits.retries", VInt 5)].
Proof.
  exact (proj2 (proj2 (flatten_leaf_unchanged "limits" "retries" (VInt 5) [] [] eq_refl))).
Defined.

(** C6 as stated fails: the integer leaf of [{"a": 5}] comes out as the
    integer [5], not as the string ["5"]. *)
Lemma flatten_leaf_not_coerced :
  _flatten_error_dict (VDict [("a", VInt 5)]) "" = Ok [("a", VInt 5)]
  /\ is_str (VInt 5) = false
  /\ _flatten_error_dict (VDict [("a", VInt 5)]) "" <> Ok [("a", VStr "5")].
Proof. split; [reflexivity | split; [reflexivity | discriminate]]. Qed.

(** C7, as the code has it: an [_errors] list of [n] records that all lack
    [message] gives an entry for the path, never an omission; its value is
    what the join leaves of [n] empty strings, [n - 1] spaces, which is the
    empty string when the list has no record or one, and only then. *)
Theorem flatten_records_without_message (key k : string) (vd : dict)
        (recs : list dict) :
  dict_lookup "_errors" vd = Some (VList (map VDict recs)) ->
  no_message recs = true ->
  flatten_entry key (k, VDict vd) =
    Ok [(new_key key k, VStr (spaces (List.length recs - 1)))]
  /\ _flatten_error_dict (VDict [(k, VDict vd)]) key =
    Ok [(new_key key k, VStr (spaces (List.length recs - 1)))]
  /\ (spaces (List.length recs - 1) = "" <-> (List.length recs <= 1)%nat).
Proof.
  intros Hlook Hno.
  destruct (no_message_are_str recs Hno) as [Hstr Hmap].
  destruct (flatten_errors_marker_aux key k vd recs Hlook Hstr) as [He Hd].
  rewrite Hmap, join_empty_strings in He, Hd.
  split; [exact He |]. split; [exact Hd |].
  rewrite spaces_empty. lia.
Qed.

Lemma flatten_records_without_message_witness :
  _flatten_error_dict
    (VDict [("a", VDict [("_errors", VList [VDict []; VDict [("code", VInt 1)]; VDict []])])]) ""
  = Ok [("a", VStr "  ")].
Proof.
  exact (proj1 (proj2 (flatten_records_without_message "" "a"
                         [("_errors", VList [VDict []; VDict [("code", VInt 1)]; VDict []])]
                         [[]; [("code", VInt 1)]; []] eq_refl eq_refl))).
Defined.

(** C7 as stated fails: two records without [message] give one space, not
    the empty string. *)
Lemma flatten_two_empty_records :
  _flatten_error_dict (VDict [("a", VDict [("_errors", VList [VDict []; VDict []])])]) ""
  = Ok [("a", VStr " ")]
  /\ VStr " " <> VStr "".
Proof. split; [reflexivity | discriminate]. Qed.

(** C8: on a mapping with no mapping among its values, the flattener with
    the empty prefix gives the mapping back, and so does a second run on
    the result. *)
Theorem flatten_flat_idempotent (d : dict) :
  dict_wf d ->
  is_flat d = true ->
  _flatten_error_dict (VDict d) "" = Ok d
  /\ (once <- _flatten_error_dict (VDict d) "" ;; _flatten_error_dict (VDict once) "")
     = _flatten_error_dict (VDict d) "".
Proof.
  intros Hwf Hflat.
  assert (Honce : _flatten_error_dict (VDict d) "" = Ok d).
  { rewrite flatten_unfold, (flatten_items_flat d Hflat). cbn [bind].
    now rewrite dict_from_items_wf. }
  split; [exact Honce |]. rewrite Honce. cbn [bind]. exact Honce.
Qed.

Lemma flatten_flat_idempotent_witness :
  _flatten_error_dict (VDict [("a", VStr "x"); ("b", VInt 2); ("c", VList [VNone])]) ""
  = Ok [("a", VStr "x"); ("b", VInt 2); ("c", VList [VNone])].
Proof.
  refine (proj1 (flatten_flat_idempotent
                   [("a", VStr "x"); ("b", VInt 2); ("c", VList [VNone])] _ eq_refl)).
  unfold dict_wf. cbn [map fst].
  repeat constructor; cbn [In]; intuition discriminate.
Defined.

(** C10: the flattener of [src/errors.py] and the flattener of
    [src/ext/errors/base_errors.py] return the same result, or raise the same
    exception, on every value and every prefix. *)
Theorem flatteners_agree (d : value) (key : string) :
  Errors._flatten_error_dict d key = BaseErrors._flatten_error_dict d key.
Proof.
  (* The two functions are the same text, line for line; their embeddings
     unfold to the same term. *)
  unfold Errors._flatten_error_dict, BaseErrors._flatten_error_dict.
  unfold Errors.new_key, BaseErrors.new_key, Errors.join_messages, BaseErrors.join_messages.
  reflexivity.
Qed.

End FlattenerClaims.

(** ** The construction of the exceptions *)

Section Translator.

Import BaseErrors.

Context {rt : PyRuntime}.

Lemma string_app_assoc (a b c : string) : ((a ++ b) ++ c = a ++ (b ++ c))%string.
Proof. induction a as [| x a IH]; cbn [append]; [reflexivity | now rewrite IH]. Qed.

Lemma readable_parts (resp : response) :
  readable resp = true ->
  exists status_code reason,
    dict_lookup "status_code" resp = Some status_code
    /\ dict_lookup "reason" resp = Some reason
    /\ (truthy status_code = true
        \/ exists status, dict_lookup "status" resp = Some status).
Proof.
  unfold readable. intros H.
  destruct (dict_lookup "status_code" resp) as [sc |]; [| discriminate H].
  destruct (dict_lookup "reason" resp) as [r |]; [| discriminate H].
  exists sc, r. repeat split.
  destruct (truthy sc); [now left | right].
  destruct (dict_lookup "status" resp) as [st |]; [now exists st | discriminate H].
Qed.

(** On a readable response the first block sets [status] and nothing else. *)
Lemma set_status_readable (self : instance) (resp : response) :
  readable resp = true ->
  exists status, set_status self resp = Ok (setattr self "status" (AValue status)).
Proof.
  intros (sc & r & Hsc & _ & Hst)%readable_parts.
  unfold set_status, getattr. rewrite Hsc. cbn [bind].
  destruct (truthy sc) eqn:Htruthy; [now exists sc |].
  destruct Hst as [Habs | [st Hst]]; [discriminate Habs |].
  rewrite Hst. cbn [bind]. destruct (truthy st); eauto.
Qed.

(** The last block goes through when [text] has a length. *)
Lemma set_args_ok (self : instance) (resp : response) (text code : value) (n : nat) :
  readable resp = true ->
  field self "text" = Some text ->
  py_len text = Ok n ->
  field self "code" = Some code ->
  exists shown, set_args self resp = Ok (Exception_init self shown).
Proof.
  intros (sc & r & Hsc & Hr & _)%readable_parts Htext Hlen Hcode.
  unfold set_args, getfield, getattr.
  rewrite Htext. cbn [bind]. rewrite Hlen. cbn [bind]. rewrite Hcode, Hsc, Hr.
  cbn [bind]. eauto.
Qed.

(** [len(self.text)] raises when [text] has no length. *)
Lemma set_args_no_len (self : instance) (resp : response) (text : value) (e : pyexc) :
  field self "text" = Some text ->
  py_len text = Raise e ->
  set_args self resp = Raise e.
Proof.
  intros Htext Hlen. unfold set_args, getfield.
  rewrite Htext. cbn [bind]. now rewrite Hlen.
Qed.

(** The constructor after its first block, on a readable response. *)
Lemma init_readable (resp : response) (message : value) :
  readable resp = true ->
  exists status,
    HTTPException_init resp message =
    (self <- set_code_text
               {| inst_class := HTTPException;
                  inst_dict := [("response", AResponse resp); ("status", AValue status)];
                  inst_args := [] |} message ;;
     set_args self resp).
Proof.
  intros Hresp. unfold HTTPException_init.
  destruct (set_status_readable
              (setattr (new_instance HTTPException) "response" (AResponse resp))
              resp Hresp) as [status Hstatus].
  exists status. rewrite Hstatus. reflexivity.
Qed.

(** A structured body with a text message and errors that flatten. *)
Lemma init_structured (resp : response) (m : dict) (base : string) (flat : dict) :
  readable resp = true ->
  dict_get m "message" (VStr "") = VStr base ->
  truthy (dict_get m "errors" VNone) = true ->
  _flatten_error_dict (dict_get m "errors" VNone) "" = Ok flat ->
  exists self,
    HTTPException_init resp (VDict m) = Ok self
    /\ field self "text" =
       Some (VStr (base ++ nl ++ join nl (map format_pair flat)))
    /\ field self "code" = Some (dict_get m "code" (VInt 0)).
Proof.
  intros Hresp Hbase Herrors Hflat.
  destruct (init_readable resp (VDict m) Hresp) as [status ->].
  cbn [set_code_text]. rewrite Herrors, Hflat, Hbase. cbn [bind py_add_str].
  match goal with
  | |- exists _, set_args ?s _ = _ /\ _ =>
      destruct (set_args_ok s resp
                  (VStr ((base ++ nl) ++ join nl (map format_pair (dict_items flat))))
                  (dict_get m "code" (VInt 0))
                  (String.length ((base ++ nl) ++ join nl (map format_pair (dict_items flat))))
                  Hresp eq_refl eq_refl eq_refl) as [shown Hshown]
  end.
  eexists. split; [exact Hshown |]. split; [| reflexivity].
  cbn. unfold dict_items. now rewrite string_app_assoc.
Qed.

(** What the first block does when it does not raise: [status] is
    [status_code] when that is truthy, else [status] when that is truthy,
    else [0]. *)
Lemma set_status_spec (self : instance) (resp : response) (status_code : value) :
  dict_lookup "status_code" resp = Some status_code ->
  (truthy status_code = true ->
   set_status self resp = Ok (setattr self "status" (AValue status_code)))
  /\ (forall status,
        truthy status_code = false ->
        dict_lookup "status" resp = Some status ->
        set_status self resp =
        Ok (setattr self "status" (AValue (if truthy status then status else VInt 0))))
  /\ (truthy status_code = false ->
      dict_lookup "status" resp = None ->
      set_status self resp = Raise AttributeError).
Proof.
  intros Hsc. unfold set_status, getattr. rewrite Hsc. cbn [bind].
  repeat split.
  - now intros ->.
  - intros status -> ->. cbn [bind]. now destruct (truthy status).
  - now intros -> ->.
Qed.

(** C1: on a response whose attributes can be read, the body
    [{"code": 50035, "message": "Invalid Form Body", "errors": {"username":
    {"_errors": [{"message": "too short"}]}}}] gives the text "Invalid Form
    Body", a newline, "In username: too short", and the code 50035.  In
    general a mapping body with a string [message] and non-empty [errors]
    that flatten gives the base message, a newline, and one line
    "In path: msg" per flattened pair, in order, joined by newlines; the code
    is the [code] of the body, 0 without one. *)
Theorem http_exception_structured_body (resp : response) (m : dict) (base : string)
        (flat : dict) :
  readable resp = true ->
  dict_get m "message" (VStr "") = VStr base ->
  truthy (dict_get m "errors" VNone) = true ->
  _flatten_error_dict (dict_get m "errors" VNone) "" = Ok flat ->
  (exists self,
      HTTPException_init resp (VDict m) = Ok self
      /\ field self "text" =
         Some (VStr (base ++ nl ++
                     join nl (map (fun t => "In " ++ fst t ++ ": " ++ py_str (snd t)) flat)))
      /\ field self "code" = Some (dict_get m "code" (VInt 0)))
  /\ (exists self,
        HTTPException_init resp invalid_form_body = Ok self
        /\ field self "text" =
           Some (VStr ("Invalid Form Body" ++ nl ++ "In username: too short"))
        /\ field self "code" = Some (VInt 50035)).
Proof.
  intros Hresp Hbase Herrors Hflat. split.
  - exact (init_structured resp m base flat Hresp Hbase Herrors Hflat).
  - unfold invalid_form_body.
    match goal with
    | |- context [HTTPException_init resp (VDict ?m0)] =>
        destruct (init_structured resp m0 "Invalid Form Body"
                    [("username", VStr "too short")] Hresp eq_refl eq_refl eq_refl)
          as (self & Hself & Htext & Hcode)
    end.
    exists self. repeat split; assumption.
Qed.

(** C4, at the input where the code departs from it: a response that has
    [status] and [reason] but no [status_code], as [aiohttp] gives it, makes
    the constructor raise [AttributeError] on its first test, whatever the
    message; [status] is never read. *)
Theorem http_exception_without_status_code (message : value) :
  HTTPException_init aiohttp_response message = Raise AttributeError.
Proof. reflexivity. Qed.

(** C5, as the code has it: a message that is not a mapping is kept as it
    is, [message or ''], with the code 0.  The constructor returns when that
    text has a length (a string, a list, and [''] for [None] and every other
    falsy message) and raises what [len] raises when it has none (a number
    that is not zero, [True]).  The text is the body itself, not [str(body)]. *)
Theorem http_exception_opaque_body (resp : response) (message : value) :
  readable resp = true ->
  is_dict message = false ->
  match py_len (py_or message (VStr "")) with
  | Ok _ =>
      exists self,
        HTTPException_init resp message = Ok self
        /\ field self "code" = Some (VInt 0)
        /\ field self "text" = Some (py_or message (VStr ""))
  | Raise e => HTTPException_init resp message = Raise e
  end.
Proof.
  intros Hresp Hmsg.
  destruct (init_readable resp message Hresp) as [status ->].
  assert (Hset : set_code_text
                   {| inst_class := HTTPException;
                      inst_dict := [("response", AResponse resp); ("status", AValue status)];
                      inst_args := [] |} message =
                 Ok {| inst_class := HTTPException;
                       inst_dict := [("response", AResponse resp); ("status", AValue status);
                                     ("text", AValue (py_or message (VStr "")));
                                     ("code", AValue (VInt 0))];
                       inst_args := [] |}).
  { destruct message; try discriminate Hmsg; reflexivity. }
  rewrite Hset. cbn [bind].
  destruct (py_len (py_or message (VStr ""))) as [n | e] eqn:Hlen.
  - match goal with
    | |- exists _, set_args ?s _ = _ /\ _ =>
        destruct (set_args_ok s resp (py_or message (VStr "")) (VInt 0) n
                    Hresp eq_refl Hlen eq_refl) as [shown Hshown]
    end.
    eexists. split; [exact Hshown |]. split; reflexivity.
  - match goal with
    | |- set_args ?s _ = _ =>
        exact (set_args_no_len s resp (py_or message (VStr "")) e eq_refl Hlen)
    end.
Qed.

End Translator.

Lemma http_exception_structured_body_witness :
  exists self,
    @BaseErrors.HTTPException_init sample_runtime requests_response
       (VDict [("message", VStr "Invalid Form Body");
               ("errors", VDict [("username",
                                  VDict [("_errors", VList [VDict [("message", VStr "too short")]])]);
                                 ("age", VInt 5)])]) = Ok self
    /\ BaseErrors.field self "text" =
       Some (VStr ("Invalid Form Body" ++ nl ++ "In username: too short" ++ nl ++ "In age: 5"))
    /\ BaseErrors.field self "code" = Some (VInt 0).
Proof.
  exact (proj1 (@http_exception_structured_body sample_runtime requests_response
                  [("message", VStr "Invalid Form Body");
                   ("errors", VDict [("username",
                                      VDict [("_errors",
                                              VList [VDict [("message", VStr "too short")]])]);
                                     ("age", VInt 5)])]
                  "Invalid Form Body"
                  [("username", VStr "too short"); ("age", VInt 5)]
                  eq_refl eq_refl eq_refl eq_refl)).
Defined.

Lemma http_exception_opaque_body_witness :
  exists self,
    @BaseErrors.HTTPException_init sample_runtime requests_response (VList [VStr "oops"]) = Ok self
    /\ BaseErrors.field self "code" = Some (VInt 0)
    /\ BaseErrors.field self "text" = Some (VList [VStr "oops"]).
Proof.
  exact (@http_exception_opaque_body sample_runtime requests_response (VList [VStr "oops"])
           eq_refl eq_refl).
Defined.

(** C5 as stated fails: on the body [{"message": 5}] the constructor
    raises [TypeError] at [len(self.text)], and on the body
    [{"message": "Bad", "errors": "boom"}] it raises [AttributeError] in the
    flattener. *)
Lemma http_exception_malformed_body_raises :
  @BaseErrors.HTTPException_init sample_runtime requests_response
     (VDict [("message", VInt 5)]) = Raise TypeError
  /\ @BaseErrors.HTTPException_init sample_runtime requests_response
       (VDict [("message", VStr "Bad"); ("errors", VStr "boom")]) = Raise AttributeError.
Proof. split; reflexivity. Qed.

Section RateLimit.

Import BaseErrors.

(** Two decimals, ties to even: [0.125], [0.375], [-0.001] and [12.0]. *)
Example format_2f_rounding :
  format_2f (S754_finite false 1 (-3)) = "0.12"
  /\ format_2f (S754_finite false 3 (-3)) = "0.38"
  /\ format_2f (S754_finite true 1152921504606847 (-60)) = "-0.00"
  /\ format_2f (S754_finite false 3 2) = "12.00".
Proof. repeat split; vm_compute; reflexivity. Qed.

(** C9: [RateLimited] is built from the float [retry_after] alone and is
    no subclass of [HTTPException]; whatever the float, the object has the
    attribute [retry_after] and none named [status], [code] or [text]; for
    [1.5] its message is "Too many requests. Retry in 1.50", which holds
    "1.50". *)
Theorem rate_limited_construction :
  issubclass RateLimited HTTPException = false
  /\ issubclass RateLimited ChatBotException = true
  /\ (forall retry_after : spec_float,
        inst_class (RateLimited_init retry_after) = RateLimited
        /\ field (RateLimited_init retry_after) "retry_after" = Some (VFloat retry_after)
        /\ hasattr (RateLimited_init retry_after) "status" = false
        /\ hasattr (RateLimited_init retry_after) "code" = false
        /\ hasattr (RateLimited_init retry_after) "text" = false
        /\ inst_args (RateLimited_init retry_after) =
           [VStr ("Too many requests. Retry in " ++ format_2f retry_after)])
  /\ (exists shown,
        inst_args (RateLimited_init one_and_a_half) = [VStr shown]
        /\ shown = "Too many requests. Retry in 1.50"
        /\ contains "1.50" shown = true).
Proof.
  split; [reflexivity |]. split; [reflexivity |]. split.
  - intros retry_after. repeat split.
  - exists "Too many requests. Retry in 1.50". repeat split; vm_compute; reflexivity.
Qed.

End RateLimit.

(** ** The flattener: what every result has *)

Section FlattenerResults.

Import BaseErrors.

(** Induction on a value, with the values inside a list or a mapping. *)
Lemma value_nested_ind (P : value -> Prop) :
  P VNone ->
  (forall b, P (VBool b)) ->
  (forall z, P (VInt z)) ->
  (forall f, P (VFloat f)) ->
  (forall s, P (VStr s)) ->
  (forall l, Forall P l -> P (VList l)) ->
  (forall d, Forall (fun kv => P (snd kv)) d -> P (VDict d)) ->
  forall v, P v.
Proof.
  intros HNone HBool HInt HFloat HStr HList HDict.
  fix IH 1. intros [| b | z | f | s | l | d].
  - exact HNone.
  - apply HBool.
  - apply HInt.
  - apply HFloat.
  - apply HStr.
  - apply HList. induction l as [| x l IHl]; constructor; [apply IH | exact IHl].
  - apply HDict. induction d as [| [k x] d IHd]; constructor; [apply IH | exact IHd].
Qed.

Lemma dict_set_Forall (P : string * value -> Prop) (d : dict) (k : string) (v : value) :
  Forall P d -> P (k, v) -> Forall P (dict_set d k v).
Proof.
  intros Hd Hkv. induction Hd as [| [k' v'] d Hx Hd IH]; cbn [dict_set].
  - now constructor.
  - destruct (String.eqb_spec k k') as [<- | _]; constructor; assumption.
Qed.

Lemma fold_dict_set_Forall (P : string * value -> Prop) (items acc : dict) :
  Forall P acc -> Forall P items ->
  Forall P (fold_left (fun d kv => dict_set d (fst kv) (snd kv)) items acc).
Proof.
  intros Hacc Hitems. revert acc Hacc.
  induction Hitems as [| [k v] items Hx Hitems IH]; intros acc Hacc; cbn [fold_left].
  - exact Hacc.
  - apply IH. now apply dict_set_Forall.
Qed.

(** What holds of every pair given to [dict(items)] holds of every pair of
    the dict. *)
Lemma dict_from_items_Forall (P : string * value -> Prop) (items : dict) :
  Forall P items -> Forall P (dict_from_items items).
Proof. intros H. now apply fold_dict_set_Forall. Qed.

Lemma dict_set_keys (d : dict) (k : string) (v : value) (x : string) :
  In x (map fst (dict_set d k v)) <-> x = k \/ In x (map fst d).
Proof.
  induction d as [| [k' v'] d IH]; cbn [dict_set map fst In].
  - intuition congruence.
  - destruct (String.eqb_spec k k') as [-> | Hne]; cbn [map fst In].
    + intuition congruence.
    + rewrite IH. intuition congruence.
Qed.

Lemma dict_set_wf (d : dict) (k : string) (v : value) :
  dict_wf d -> dict_wf (dict_set d k v).
Proof.
  unfold dict_wf. induction d as [| [k' v'] d IH]; cbn [dict_set map fst]; intros Hnd.
  - constructor; [intros [] | constructor].
  - inversion Hnd as [| ? ? Hnotin Hnd']; subst.
    destruct (String.eqb_spec k k') as [-> | Hne]; cbn [map fst].
    + now constructor.
    + constructor; [| now apply IH].
      rewrite dict_set_keys. intros [-> | Hin]; [now apply Hne | now apply Hnotin].
Qed.

(** [dict(items)] holds no key twice. *)
Lemma dict_from_items_is_wf (items : dict) : dict_wf (dict_from_items items).
Proof.
  unfold dict_from_items.
  assert (H : forall acc, dict_wf acc ->
                dict_wf (fold_left (fun d kv => dict_set d (fst kv) (snd kv)) items acc)).
  { induction items as [| [k v] items IH]; intros acc Hacc; cbn [fold_left].
    - exact Hacc.
    - apply IH. now apply dict_set_wf. }
  apply H. constructor.
Qed.

Lemma is_flat_Forall (d : dict) :
  is_flat d = true <-> Forall (fun kv => is_dict (snd kv) = false) d.
Proof.
  unfold is_flat. rewrite forallb_forall, Forall_forall.
  split; intros H kv Hin; specialize (H kv Hin); now destruct (is_dict (snd kv)).
Qed.

Section Invariant.

(** A property [Q key] of the pairs of a result that the three ways of
    adding to [items] keep. *)
Variable Q : string -> string * value -> Prop.
Hypothesis Q_leaf : forall key k v, is_dict v = false -> Q key (new_key key k, v).
Hypothesis Q_sub : forall key k kv, Q (new_key key k) kv -> Q key kv.

Lemma flatten_invariant (d : value) :
  forall key r, _flatten_error_dict d key = Ok r -> Forall (Q key) r.
Proof.
  induction d as [| b | z | f | s | l _ | es IH] using value_nested_ind;
    intros key r Hr; try discriminate Hr.
  rewrite flatten_unfold in Hr.
  destruct (flatten_items key es) as [items |] eqn:Hitems; [| discriminate Hr].
  cbn [bind] in Hr. injection Hr as <-.
  apply dict_from_items_Forall.
  revert items Hitems.
  induction IH as [| [k v] es Hv _ IHes]; intros items Hitems; cbn [flatten_items] in Hitems.
  - injection Hitems as <-. constructor.
  - destruct (flatten_entry key (k, v)) as [here |] eqn:Hhere; [| discriminate Hitems].
    cbn [bind] in Hitems.
    destruct (flatten_items key es) as [rest |]; [| discriminate Hitems].
    cbn [bind] in Hitems. injection Hitems as <-.
    apply Forall_app. split; [| now apply IHes].
    cbn [snd] in Hv. cbn [flatten_entry] in Hhere.
    destruct v as [| b | z | f | s | l | vd];
      try (injection Hhere as <-; constructor; [now apply Q_leaf | constructor]).
    unfold dict_getitem in Hhere.
    destruct (dict_lookup "_errors" vd) as [e |].
    + destruct (join_messages e) as [msg |]; [| discriminate Hhere].
      cbn [bind] in Hhere. injection Hhere as <-.
      constructor; [now apply Q_leaf | constructor].
    + destruct (_flatten_error_dict (VDict vd) (new_key key k)) as [sub |] eqn:Hsub;
        [| discriminate Hhere].
      cbn [bind] in Hhere. injection Hhere as <-. unfold dict_items.
      specialize (Hv _ _ Hsub).
      eapply Forall_impl; [| exact Hv]. intros kv. apply Q_sub.
Qed.

End Invariant.

Lemma prefix_app (a b : string) : String.prefix a (a ++ b) = true.
Proof.
  induction a as [| x a IH]; cbn [append String.prefix]; [now destruct b |].
  now destruct (ascii_dec x x).
Qed.

Lemma prefix_trans (a b c : string) :
  String.prefix a b = true -> String.prefix b c = true -> String.prefix a c = true.
Proof.
  revert b c. induction a as [| x a IH]; intros b c Hab Hbc.
  - now destruct c.
  - destruct b as [| y b]; [discriminate Hab |].
    destruct c as [| z c]; [discriminate Hbc |].
    cbn [String.prefix] in *.
    destruct (ascii_dec x y) as [-> |]; [| discriminate Hab].
    destruct (ascii_dec y z) as [-> |]; [| discriminate Hbc].
    now apply (IH b c).
Qed.

Lemma new_key_nonempty (key k : string) :
  key <> "" -> new_key key k = key ++ "." ++ k.
Proof. intros Hkey. unfold new_key. destruct key; [now elim Hkey | reflexivity]. Qed.

Lemma flatten_result_shape (d : value) (key : string) (r : dict) :
  _flatten_error_dict d key = Ok r -> is_flat r = true /\ dict_wf r.
Proof.
  intros Hr. split.
  - apply is_flat_Forall.
    apply (flatten_invariant (fun _ kv => is_dict (snd kv) = false)) with (d := d) (key := key);
      [intros ? ? ? Hv; exact Hv | intros ? ? ? Hkv; exact Hkv | exact Hr].
  - destruct d as [| | | | | | es]; try discriminate Hr.
    rewrite flatten_unfold in Hr.
    destruct (flatten_items key es) as [items |]; [| discriminate Hr].
    cbn [bind] in Hr. injection Hr as <-. apply dict_from_items_is_wf.
Qed.

(** X1: whatever the input and the prefix, a result of the flattener holds
    no mapping among its values and no path twice, and the flattener with
    the empty prefix gives it back unchanged. *)
Theorem flatten_result_is_fixed_point (d : value) (key : string) (r : dict) :
  _flatten_error_dict d key = Ok r ->
  is_flat r = true
  /\ dict_wf r
  /\ _flatten_error_dict (VDict r) "" = Ok r.
Proof.
  intros Hr. destruct (flatten_result_shape d key r Hr) as [Hflat Hwf].
  split; [exact Hflat |]. split; [exact Hwf |].
  rewrite flatten_unfold, (flatten_items_flat r Hflat). cbn [bind].
  now rewrite dict_from_items_wf.
Qed.

Lemma flatten_result_is_fixed_point_witness :
  is_flat [("form.user.name", VStr "too short"); ("form.age", VInt 5)] = true
  /\ dict_wf [("form.user.name", VStr "too short"); ("form.age", VInt 5)]
  /\ _flatten_error_dict (VDict [("form.user.name", VStr "too short"); ("form.age", VInt 5)]) ""
     = Ok [("form.user.name", VStr "too short"); ("form.age", VInt 5)].
Proof.
  exact (flatten_result_is_fixed_point
           (VDict [("user", VDict [("name", VDict [("_errors",
                                                    VList [VDict [("message", VStr "too short")]])])]);
                   ("age", VInt 5)])
           "form" _ eq_refl).
Defined.

(** X2: with a prefix that is not empty, every path of the result starts
    with the prefix followed by a dot, at every depth of the input. *)
Theorem flatten_paths_start_with_prefix (d : value) (key : string) (r : dict) :
  key <> "" ->
  _flatten_error_dict d key = Ok r ->
  paths_start_with (key ++ ".") r = true.
Proof.
  intros Hkey Hr. unfold paths_start_with. rewrite forallb_forall.
  assert (H : Forall (fun kv => key = "" \/ String.prefix (key ++ ".") (fst kv) = true) r).
  { apply (flatten_invariant
             (fun key kv => key = "" \/ String.prefix (key ++ ".") (fst kv) = true))
      with (d := d); [| | exact Hr].
    - intros key0 k v _. destruct key0 as [| c key0]; [now left | right].
      cbn [fst]. rewrite new_key_nonempty by discriminate.
      rewrite <- string_app_assoc. apply prefix_app.
    - intros key0 k kv [Hnk | Hpre].
      + destruct key0; [now left | discriminate Hnk].
      + destruct key0 as [| c key0]; [now left | right].
        rewrite new_key_nonempty in Hpre by discriminate.
        refine (prefix_trans _ _ _ _ Hpre).
        rewrite !string_app_assoc. rewrite <- (string_app_assoc (String c key0) ".").
        apply prefix_app. }
  rewrite Forall_forall in H. intros kv Hin.
  destruct (H kv Hin) as [Habs | Hpre]; [now elim Hkey | exact Hpre].
Qed.

Lemma flatten_paths_start_with_prefix_witness :
  paths_start_with "form." [("form.user.name", VStr "too short"); ("form.age", VInt 5)] = true.
Proof.
  refine (flatten_paths_start_with_prefix
            (VDict [("user", VDict [("name", VDict [("_errors",
                                                     VList [VDict [("message", VStr "too short")]])])]);
                    ("age", VInt 5)])
            "form" _ _ eq_refl).
  discriminate.
Defined.

Lemma dict_lookup_set (d : dict) (k k' : string) (v : value) :
  dict_lookup k (dict_set d k' v) = if String.eqb k k' then Some v else dict_lookup k d.
Proof.
  induction d as [| [k0 v0] d IH]; cbn [dict_set dict_lookup].
  - reflexivity.
  - destruct (String.eqb_spec k' k0) as [-> | Hne]; cbn [dict_lookup].
    + now destruct (String.eqb k k0).
    + rewrite IH. destruct (String.eqb_spec k k0) as [-> | _]; [| reflexivity].
      destruct (String.eqb_spec k0 k') as [-> | _]; [now elim Hne | reflexivity].
Qed.

Lemma dict_lookup_app (k : string) (d1 d2 : dict) :
  dict_lookup k (d1 ++ d2)%list =
  match dict_lookup k d1 with
  | Some v => Some v
  | None => dict_lookup k d2
  end.
Proof.
  induction d1 as [| [k1 v1] d1 IH]; cbn [app dict_lookup]; [reflexivity |].
  now destruct (String.eqb k k1).
Qed.

(** In [dict(items)] a key has the value of the last pair that names it. *)
Lemma dict_from_items_lookup (items : dict) (k : string) :
  dict_lookup k (dict_from_items items) = dict_lookup k (rev items).
Proof.
  unfold dict_from_items.
  assert (H : forall acc,
             dict_lookup k (fold_left (fun d kv => dict_set d (fst kv) (snd kv)) items acc) =
             match dict_lookup k (rev items) with
             | Some v => Some v
             | None => dict_lookup k acc
             end).
  { induction items as [| [k0 v0] items IH]; intros acc; cbn [fold_left rev fst snd].
    - reflexivity.
    - rewrite IH, dict_lookup_app, dict_lookup_set. cbn [dict_lookup].
      destruct (dict_lookup k (rev items)); [reflexivity |].
      now destruct (String.eqb k k0). }
  rewrite H. now destruct (dict_lookup k (rev items)).
Qed.

(** X3: when two pairs of the loop give the same path, the result holds
    the path once, with the value of the later pair: looking a path up in the
    result is looking it up in the list [items] read from its end. *)
Theorem flatten_later_pair_wins (es : list (string * value)) (key : string) (items : dict) :
  flatten_items key es = Ok items ->
  exists r,
    _flatten_error_dict (VDict es) key = Ok r
    /\ dict_wf r
    /\ forall path, dict_lookup path r = dict_lookup path (rev items).
Proof.
  intros Hitems. exists (dict_from_items items).
  rewrite flatten_unfold, Hitems. cbn [bind].
  split; [reflexivity |]. split; [apply dict_from_items_is_wf |].
  intros path. apply dict_from_items_lookup.
Qed.

Lemma flatten_later_pair_wins_witness :
  exists r,
    _flatten_error_dict (VDict [("a.b", VStr "first"); ("c", VInt 1);
                                ("a", VDict [("b", VStr "second")])]) "" = Ok r
    /\ dict_wf r
    /\ forall path,
         dict_lookup path r =
         dict_lookup path (rev [("a.b", VStr "first"); ("c", VInt 1); ("a.b", VStr "second")]).
Proof.
  exact (flatten_later_pair_wins
           [("a.b", VStr "first"); ("c", VInt 1); ("a", VDict [("b", VStr "second")])]
           "" [("a.b", VStr "first"); ("c", VInt 1); ("a.b", VStr "second")] eq_refl).
Defined.

Lemma mapM_get_dicts (l : list value) :
  mapM (fun x => py_get x "message" (VStr "")) l =
  if forallb is_dict l
  then Ok (map (fun x => match x with
                         | VDict r => dict_get r "message" (VStr "")
                         | _ => VNone
                         end) l)
  else Raise AttributeError.
Proof.
  induction l as [| x l IH]; [reflexivity |].
  cbn [mapM forallb map]. destruct x; cbn [py_get is_dict bind andb]; try reflexivity.
  rewrite IH. now destruct (forallb is_dict l).
Qed.

Lemma mapM_as_str_dicts (l : list value) :
  forallb is_dict l = true ->
  mapM as_str (map (fun x => match x with
                             | VDict r => dict_get r "message" (VStr "")
                             | _ => VNone
                             end) l) =
  if wf_records (VList l)
  then Ok (map (fun x => match x with
                         | VDict r => message_of r
                         | _ => ""
                         end) l)
  else Raise TypeError.
Proof.
  induction l as [| x l IH]; [reflexivity |].
  cbn [forallb]. intros [Hx Hl]%andb_prop.
  destruct x as [| | | | | | r]; try discriminate Hx.
  cbn [map mapM wf_records forallb]. specialize (IH Hl). cbn [wf_records] in IH.
  unfold message_of.
  destruct (dict_get r "message" (VStr "")); cbn [as_str bind is_str andb]; try reflexivity.
  rewrite IH.
  now destruct (forallb _ l).
Qed.

Lemma mapM_get_strs (l : list string) :
  mapM (fun x => py_get x "message" (VStr "")) (map VStr l) =
  if Nat.eqb (List.length l) 0 then Ok [] else Raise AttributeError.
Proof. now destruct l. Qed.

(** The join of the messages, by the shape of [_errors]. *)
Lemma join_messages_outcome (e : value) : join_messages e = errors_marker_outcome e.
Proof.
  unfold join_messages, py_join.
  destruct e as [| b | z | f | s | l | d]; try reflexivity.
  - cbn [py_iter bind errors_marker_outcome].
    destruct s as [| c s]; reflexivity.
  - cbn [py_iter bind errors_marker_outcome]. rewrite mapM_get_dicts.
    destruct (forallb is_dict l) eqn:Hdicts; [| reflexivity].
    cbn [bind]. rewrite (mapM_as_str_dicts l Hdicts).
    now destruct (wf_records (VList l)).
  - cbn [py_iter bind errors_marker_outcome].
    destruct d as [| [k v] d]; reflexivity.
Qed.

(** X4: what a mapping marked by [_errors] comes to, for every shape of
    the value under [_errors].  A list of records gives the entry.  A list
    with an item that is not a mapping raises [AttributeError], also when a
    record before it has a message that is not a string; a list of mappings
    with such a message raises [TypeError]; [None] and numbers raise
    [TypeError]; a string or a mapping raises [AttributeError] unless it is
    empty, and then gives the empty message. *)
Theorem flatten_marker_outcome (key k : string) (vd : dict) (e : value) :
  dict_lookup "_errors" vd = Some e ->
  flatten_entry key (k, VDict vd) =
    (msg <- errors_marker_outcome e ;; Ok [(new_key key k, VStr msg)])
  /\ _flatten_error_dict (VDict [(k, VDict vd)]) key =
    (msg <- errors_marker_outcome e ;; Ok [(new_key key k, VStr msg)]).
Proof.
  intros Hlook.
  assert (Hentry : flatten_entry key (k, VDict vd) =
                   (msg <- errors_marker_outcome e ;; Ok [(new_key key k, VStr msg)])).
  { cbn [flatten_entry]. unfold dict_getitem. rewrite Hlook.
    now rewrite join_messages_outcome. }
  split; [exact Hentry |].
  rewrite flatten_unfold. cbn [flatten_items]. rewrite Hentry.
  now destruct (errors_marker_outcome e).
Qed.

Lemma flatten_marker_outcome_witness :
  _flatten_error_dict
    (VDict [("a", VDict [("_errors", VList [VDict [("message", VInt 1)]; VStr "oops"])])]) ""
  = Raise AttributeError.
Proof.
  exact (proj2 (flatten_marker_outcome "" "a"
                  [("_errors", VList [VDict [("message", VInt 1)]; VStr "oops"])]
                  (VList [VDict [("message", VInt 1)]; VStr "oops"]) eq_refl)).
Defined.

(** X5: the first pair that raises ends the loop with its exception, and
    nothing of what the pairs before it gave is returned. *)
Theorem flatten_first_failure_wins (key : string) (pre post : list (string * value))
        (kv : string * value) (i1 : dict) (e : pyexc) :
  flatten_items key pre = Ok i1 ->
  flatten_entry key kv = Raise e ->
  _flatten_error_dict (VDict (pre ++ kv :: post)) key = Raise e.
Proof.
  intros Hpre Hkv. rewrite flatten_unfold, flatten_items_app, Hpre.
  cbn [bind flatten_items]. now rewrite Hkv.
Qed.

Lemma flatten_first_failure_wins_witness :
  _flatten_error_dict
    (VDict [("name", VDict [("_errors", VList [VDict [("message", VStr "too short")]])]);
            ("age", VDict [("_errors", VInt 7)]);
            ("mail", VDict [("_errors", VStr "oops")])]) ""
  = Raise TypeError.
Proof.
  exact (flatten_first_failure_wins ""
           [("name", VDict [("_errors", VList [VDict [("message", VStr "too short")]])])]
           [("mail", VDict [("_errors", VStr "oops")])]
           ("age", VDict [("_errors", VInt 7)])
           [("name", VStr "too short")] TypeError eq_refl eq_refl).
Defined.




End FlattenerResults.

(** ** The constructors: what they need and what they leave *)

Section Constructors.

Import BaseErrors.

Context {rt : PyRuntime}.

Lemma attr_lookup_set_other (d : list (string * attr)) (name other : string) (a : attr) :
  name <> other -> attr_lookup name (attr_set d other a) = attr_lookup name d.
Proof.
  intros Hne. induction d as [| [n a'] d IH]; cbn [attr_set attr_lookup].
  - destruct (String.eqb_spec name other); [contradiction | reflexivity].
  - destruct (String.eqb_spec other n) as [-> | _]; cbn [attr_lookup].
    + destruct (String.eqb_spec name n); [contradiction | reflexivity].
    + now rewrite IH.
Qed.

Lemma attr_lookup_set_same (d : list (string * attr)) (name : string) (a : attr) :
  attr_lookup name (attr_set d name a) = Some a.
Proof.
  induction d as [| [n a'] d IH]; cbn [attr_set attr_lookup].
  - now rewrite String.eqb_refl.
  - destruct (String.eqb_spec name n) as [-> | Hne]; cbn [attr_lookup].
    + now rewrite String.eqb_refl.
    + destruct (String.eqb_spec name n); [contradiction | exact IH].
Qed.

Lemma field_setattr_other (self : instance) (name other : string) (a : attr) :
  name <> other -> field (setattr self other a) name = field self name.
Proof.
  intros Hne. unfold field, setattr. cbn [inst_dict].
  now rewrite attr_lookup_set_other.
Qed.

Lemma field_setattr_same (self : instance) (name : string) (v : value) :
  field (setattr self name (AValue v)) name = Some v.
Proof. unfold field, setattr. cbn [inst_dict]. now rewrite attr_lookup_set_same. Qed.

Lemma hasattr_setattr_other (self : instance) (name other : string) (a : attr) :
  name <> other -> hasattr (setattr self other a) name = hasattr self name.
Proof.
  intros Hne. unfold hasattr, setattr. cbn [inst_dict].
  now rewrite attr_lookup_set_other.
Qed.

(** The last block of [HTTPException.__init__] is the message followed by
    [Exception.__init__]. *)
Lemma set_args_shown (self : instance) (resp : response) :
  set_args self resp =
  (shown <- shown_message "status_code" self resp ;; Ok (Exception_init self shown)).
Proof.
  unfold set_args, shown_message.
  destruct (getfield self "text") as [text |]; [| reflexivity]. cbn [bind].
  destruct (py_len text) as [n |]; [| reflexivity]. cbn [bind].
  destruct (getfield self "code") as [code |]; [| reflexivity]. cbn [bind].
  destruct (getattr resp "status_code") as [sc |]; [| reflexivity]. cbn [bind].
  destruct (getattr resp "reason") as [rs |]; reflexivity.
Qed.

(** [HTTPException.__init__] is the common body with its own class and
    [status_code] in [fmt]. *)
Lemma http_exception_init_like (resp : response) (message : value) :
  HTTPException_init resp message = init_like HTTPException "status_code" resp message.
Proof.
  unfold HTTPException_init, init_like.
  destruct (set_status _ resp) as [self1 |]; [| reflexivity]. cbn [bind].
  destruct (set_code_text self1 message) as [self2 |]; [| reflexivity]. cbn [bind].
  rewrite set_args_shown.
  destruct (shown_message "status_code" self2 resp); reflexivity.
Qed.

(** The first block sets [status] to a truthy value of the response or to 0. *)
Lemma set_status_outcome (self self' : instance) (resp : response) :
  set_status self resp = Ok self' ->
  exists status,
    self' = setattr self "status" (AValue status)
    /\ (truthy status = true \/ status = VInt 0).
Proof.
  unfold set_status. intros H.
  destruct (getattr resp "status_code") as [sc |]; [| discriminate H]. cbn [bind] in H.
  destruct (truthy sc) eqn:Hsc.
  - injection H as <-. exists sc. now split; [| left].
  - destruct (getattr resp "status") as [st |]; [| discriminate H]. cbn [bind] in H.
    destruct (truthy st) eqn:Hst; injection H as <-.
    + exists st. now split; [| left].
    + exists (VInt 0). now split; [| right].
Qed.

(** The second block sets [code], [text] and [_errors] and nothing else. *)
Lemma set_code_text_keeps (self self' : instance) (message : value) (name : string) :
  set_code_text self message = Ok self' ->
  name <> "code" -> name <> "text" -> name <> "_errors" ->
  field self' name = field self name /\ inst_class self' = inst_class self.
Proof.
  intros H Hcode Htext Herrors. unfold set_code_text in H.
  destruct message as [| b | z | f | s | l | m];
    try (injection H as <-; rewrite !field_setattr_other by assumption; now split).
  destruct (truthy (dict_get m "errors" VNone)).
  - destruct (_flatten_error_dict _ "") as [flat |]; [| discriminate H]. cbn [bind] in H.
    destruct (py_add_str (dict_get m "message" (VStr "")) nl) as [base_nl |];
      [| discriminate H]. cbn [bind] in H.
    destruct (py_add_str base_nl _) as [text |]; [| discriminate H]. cbn [bind] in H.
    injection H as <-. rewrite !field_setattr_other by assumption. now split.
  - injection H as <-. rewrite !field_setattr_other by assumption. now split.
Qed.

Lemma init_like_outcome (c : pyclass) (status_attr : string) (resp : response)
      (message : value) (self : instance) :
  init_like c status_attr resp message = Ok self ->
  exists self1 self2 shown,
    set_status (setattr (new_instance c) "response" (AResponse resp)) resp = Ok self1
    /\ set_code_text self1 message = Ok self2
    /\ shown_message status_attr self2 resp = Ok shown
    /\ super_init_accepts c 1 = Ok tt
    /\ self = Exception_init self2 shown.
Proof.
  unfold init_like. intros H.
  destruct (set_status _ resp) as [self1 |] eqn:H1; [| discriminate H]. cbn [bind] in H.
  destruct (set_code_text self1 message) as [self2 |] eqn:H2; [| discriminate H].
  cbn [bind] in H.
  destruct (shown_message status_attr self2 resp) as [shown |] eqn:H3; [| discriminate H].
  cbn [bind] in H.
  destruct (super_init_accepts c 1) as [[] |] eqn:H4; [| discriminate H]. cbn [bind] in H.
  injection H as <-. exists self1, self2, shown. repeat split; assumption.
Qed.

(** X7: [Forbidden] and [ServerError] cannot be built.  Their [__init__]
    ends with [super().__init__] given one argument, and the [__init__] it
    reaches is the one of [HTTPException], which takes two: whatever the
    response and the message the constructor raises, and it is that
    [TypeError] when everything before went through. *)
Theorem forbidden_and_server_error_never_built (resp : response) (message : value) :
  (exists e, Forbidden_init resp message = Raise e)
  /\ (exists e, ServerError_init resp message = Raise e)
  /\ (forall s, Forbidden_init both_status_response (VStr s) = Raise TypeError)
  /\ (forall s, ServerError_init requests_response (VStr s) = Raise TypeError).
Proof.
  assert (H : forall c attr,
             super_init_accepts c 1 = Raise TypeError ->
             exists e, init_like c attr resp message = Raise e).
  { intros c attr Hsuper.
    destruct (init_like c attr resp message) as [self |] eqn:Hinit; [| eauto].
    apply init_like_outcome in Hinit.
    destruct Hinit as (_ & _ & _ & _ & _ & _ & Hacc & _). congruence. }
  split; [now apply H |]. split; [now apply H |].
  split; intros s; destruct s; reflexivity.
Qed.

(** X8: the five constructors that take a response test
    [response.status_code] first; on a response without that attribute each
    of them raises [AttributeError], whatever the message and whatever else
    the response has. *)
Theorem constructors_need_status_code (resp : response) (message : value) :
  dict_lookup "status_code" resp = None ->
  HTTPException_init resp message = Raise AttributeError
  /\ Forbidden_init resp message = Raise AttributeError
  /\ ServerError_init resp message = Raise AttributeError
  /\ InvalidData_init resp message = Raise AttributeError
  /\ LoginFailure_init resp message = Raise AttributeError.
Proof.
  intros Hsc.
  assert (H : forall c attr, init_like c attr resp message = Raise AttributeError).
  { intros c attr. unfold init_like, set_status, getattr. now rewrite Hsc. }
  rewrite http_exception_init_like. repeat split; apply H.
Qed.

(** X9: [InvalidData] and [LoginFailure] print [response.status] in their
    message, so on a response without the attribute [status] they raise,
    also when [status_code] is there and was used for [self.status]. *)
Theorem invalid_data_needs_status (resp : response) (message : value) :
  dict_lookup "status" resp = None ->
  (exists e, InvalidData_init resp message = Raise e)
  /\ (exists e, LoginFailure_init resp message = Raise e).
Proof.
  intros Hst.
  assert (H : forall c, exists e, init_like c "status" resp message = Raise e).
  { intros c.
    destruct (init_like c "status" resp message) as [self |] eqn:Hinit; [| eauto].
    apply init_like_outcome in Hinit.
    destruct Hinit as (self1 & self2 & shown & _ & _ & Hshown & _).
    unfold shown_message, getattr in Hshown. rewrite Hst in Hshown.
    destruct (getfield self2 "text") as [text |]; [| discriminate Hshown].
    cbn [bind] in Hshown.
    destruct (py_len text); [| discriminate Hshown]. cbn [bind] in Hshown.
    destruct (getfield self2 "code"); discriminate Hshown. }
  split; apply H.
Qed.

Lemma shown_message_ok (status_attr : string) (self : instance) (resp : response)
      (text code status reason : value) (n : nat) :
  field self "text" = Some text ->
  py_len text = Ok n ->
  field self "code" = Some code ->
  dict_lookup status_attr resp = Some status ->
  dict_lookup "reason" resp = Some reason ->
  shown_message status_attr self resp =
  Ok (py_str status ++ " " ++ py_str reason
        ++ " (error code: " ++ py_str code ++ ")"
        ++ (if Nat.eqb n 0 then "" else ": " ++ py_str text)).
Proof.
  intros Htext Hlen Hcode Hstatus Hreason. unfold shown_message, getfield, getattr.
  rewrite Htext. cbn [bind]. rewrite Hlen. cbn [bind].
  now rewrite Hcode, Hstatus, Hreason.
Qed.

(** The common body after the second block, when the text has a length and
    the response has what the message prints. *)
Lemma init_like_after_text (c : pyclass) (status_attr : string) (resp : response)
      (message : value) (self1 self2 : instance) (text code status reason : value)
      (n : nat) :
  set_status (setattr (new_instance c) "response" (AResponse resp)) resp = Ok self1 ->
  set_code_text self1 message = Ok self2 ->
  field self2 "text" = Some text ->
  py_len text = Ok n ->
  field self2 "code" = Some code ->
  dict_lookup status_attr resp = Some status ->
  dict_lookup "reason" resp = Some reason ->
  super_init_accepts c 1 = Ok tt ->
  init_like c status_attr resp message =
  Ok (Exception_init self2
        (py_str status ++ " " ++ py_str reason
           ++ " (error code: " ++ py_str code ++ ")"
           ++ (if Nat.eqb n 0 then "" else ": " ++ py_str text))).
Proof.
  intros H1 H2 Htext Hlen Hcode Hstatus Hreason Hsuper. unfold init_like.
  rewrite H1. cbn [bind]. rewrite H2. cbn [bind].
  rewrite (shown_message_ok status_attr self2 resp text code status reason n
             Htext Hlen Hcode Hstatus Hreason).
  cbn [bind]. now rewrite Hsuper.
Qed.

Lemma set_status_both (self : instance) (resp : response) (sc st : value) :
  dict_lookup "status_code" resp = Some sc ->
  dict_lookup "status" resp = Some st ->
  set_status self resp =
  Ok (setattr self "status"
        (AValue (if truthy sc then sc else if truthy st then st else VInt 0))).
Proof.
  intros Hsc Hst. unfold set_status, getattr. rewrite Hsc. cbn [bind].
  destruct (truthy sc); [reflexivity |]. rewrite Hst. cbn [bind].
  now destruct (truthy st).
Qed.

Lemma set_code_text_plain (self : instance) (message : value) :
  is_dict message = false ->
  set_code_text self message =
  Ok (setattr (setattr self "text" (AValue (py_or message (VStr ""))))
        "code" (AValue (VInt 0))).
Proof. intros H. destruct message; try discriminate H; reflexivity. Qed.

Ltac field_chain :=
  repeat first
    [ rewrite field_setattr_same
    | rewrite field_setattr_other by discriminate
    | rewrite hasattr_setattr_other by discriminate ].

(** X10: on a response that has [status_code], [status] and [reason], with
    a message that is no mapping and has a length once [None] is replaced by
    [''], [InvalidData] and [LoginFailure] are built: [status] is
    [status_code] when truthy, else [status] when truthy, else 0; the code
    is 0; the text is the message; and the message shown starts with
    [response.status], which need not be the [status] kept. *)
Theorem invalid_data_built (resp : response) (message sc st reason : value) (n : nat) :
  dict_lookup "status_code" resp = Some sc ->
  dict_lookup "status" resp = Some st ->
  dict_lookup "reason" resp = Some reason ->
  is_dict message = false ->
  py_len (py_or message (VStr "")) = Ok n ->
  let built c (self : instance) :=
    inst_class self = c
    /\ field self "status" =
       Some (if truthy sc then sc else if truthy st then st else VInt 0)
    /\ field self "code" = Some (VInt 0)
    /\ field self "text" = Some (py_or message (VStr ""))
    /\ inst_args self =
       [VStr (py_str st ++ " " ++ py_str reason ++ " (error code: 0)"
                ++ (if Nat.eqb n 0 then "" else ": " ++ py_str (py_or message (VStr ""))))] in
  (exists self, InvalidData_init resp message = Ok self /\ built InvalidData self)
  /\ (exists self, LoginFailure_init resp message = Ok self /\ built LoginFailure self).
Proof.
  intros Hsc Hst Hreason Hmsg Hlen built.
  assert (H : forall c, super_init_accepts c 1 = Ok tt ->
                   exists self, init_like c "status" resp message = Ok self /\ built c self).
  { intros c Hsuper. eexists. split.
    - eapply init_like_after_text;
        [apply (set_status_both _ resp sc st Hsc Hst)
        | apply (set_code_text_plain _ message Hmsg)
        | | exact Hlen | | exact Hst | exact Hreason | exact Hsuper].
      + now field_chain.
      + now field_chain.
    - unfold built. repeat split. }
  split; apply H; reflexivity.
Qed.

(** X11: on a response whose attributes can be read, [HTTPException] with a
    message that is no mapping, as [HTTPException(response, None)] of the
    smoke test, has the code 0, the message as text ([''] for [None]) and no
    attribute [_errors]; the message shown is "status_code reason (error
    code: 0)", followed by ": text" when the text is not empty. *)
Theorem http_exception_plain_message (resp : response) (message sc reason : value)
        (n : nat) :
  readable resp = true ->
  dict_lookup "status_code" resp = Some sc ->
  dict_lookup "reason" resp = Some reason ->
  is_dict message = false ->
  py_len (py_or message (VStr "")) = Ok n ->
  exists self,
    HTTPException_init resp message = Ok self
    /\ field self "code" = Some (VInt 0)
    /\ field self "text" = Some (py_or message (VStr ""))
    /\ hasattr self "_errors" = false
    /\ inst_args self =
       [VStr (py_str sc ++ " " ++ py_str reason ++ " (error code: 0)"
                ++ (if Nat.eqb n 0 then "" else ": " ++ py_str (py_or message (VStr ""))))].
Proof.
  intros Hresp Hsc Hreason Hmsg Hlen.
  destruct (set_status_readable
              (setattr (new_instance HTTPException) "response" (AResponse resp))
              resp Hresp) as [status Hstatus].
  rewrite http_exception_init_like.
  eexists. split.
  - eapply init_like_after_text;
      [exact Hstatus | apply (set_code_text_plain _ message Hmsg)
      | | exact Hlen | | exact Hsc | exact Hreason | reflexivity].
    + now field_chain.
    + now field_chain.
  - repeat split.
Qed.

(** X12: whenever [HTTPException] is built, its [status], [code] and
    [text] are all set; the status is a truthy value or the integer 0, never
    [None] or another falsy value, and the text has a length. *)
Theorem http_exception_attributes (resp : response) (message : value) (self : instance) :
  HTTPException_init resp message = Ok self ->
  inst_class self = HTTPException
  /\ (exists status,
        field self "status" = Some status
        /\ (truthy status = true \/ status = VInt 0))
  /\ (exists code, field self "code" = Some code)
  /\ (exists text n, field self "text" = Some text /\ py_len text = Ok n).
Proof.
  rewrite http_exception_init_like. intros Hinit.
  apply init_like_outcome in Hinit.
  destruct Hinit as (self1 & self2 & shown & H1 & H2 & Hshown & _ & ->).
  destruct (set_status_outcome _ _ _ H1) as (status & -> & Hstatus).
  destruct (set_code_text_keeps _ _ message "status" H2) as [Hkeep Hclass];
    try discriminate.
  split; [exact Hclass |]. split.
  - exists status. split; [| exact Hstatus].
    change (field self2 "status" = Some status). rewrite Hkeep. now field_chain.
  - unfold shown_message, getfield in Hshown.
    change (field (Exception_init self2 shown) "code") with (field self2 "code").
    change (field (Exception_init self2 shown) "text") with (field self2 "text").
    destruct (field self2 "text") as [text |]; [| discriminate Hshown].
    cbn [bind] in Hshown.
    destruct (py_len text) as [n |] eqn:Hlen; [| discriminate Hshown].
    cbn [bind] in Hshown.
    destruct (field self2 "code") as [code |]; [| discriminate Hshown].
    split; [now exists code | now exists text, n].
Qed.

(** X13: a mapping body with a string message and with [errors] absent,
    [None] or empty is translated without a call of the flattener: the text
    is the message, the code is the [code] of the body (0 without one),
    [_errors] keeps what was under [errors], and the message shown ends with
    ": message" unless the message is empty. *)
Theorem http_exception_without_errors (resp : response) (m : dict) (base : string)
        (sc reason : value) :
  readable resp = true ->
  dict_lookup "status_code" resp = Some sc ->
  dict_lookup "reason" resp = Some reason ->
  dict_get m "message" (VStr "") = VStr base ->
  truthy (dict_get m "errors" VNone) = false ->
  exists self,
    HTTPException_init resp (VDict m) = Ok self
    /\ field self "text" = Some (VStr base)
    /\ field self "code" = Some (dict_get m "code" (VInt 0))
    /\ field self "_errors" = Some (dict_get m "errors" VNone)
    /\ inst_args self =
       [VStr (py_str sc ++ " " ++ py_str reason
                ++ " (error code: " ++ py_str (dict_get m "code" (VInt 0)) ++ ")"
                ++ (if Nat.eqb (String.length base) 0 then "" else ": " ++ base))].
Proof.
  intros Hresp Hsc Hreason Hbase Herrors.
  destruct (set_status_readable
              (setattr (new_instance HTTPException) "response" (AResponse resp))
              resp Hresp) as [status Hstatus].
  rewrite http_exception_init_like.
  eexists. split.
  - eapply init_like_after_text with (text := VStr base);
      [exact Hstatus | cbn [set_code_text]; rewrite Herrors, Hbase; reflexivity
      | | reflexivity | | exact Hsc | exact Hreason | reflexivity].
    + now field_chain.
    + now field_chain.
  - repeat split.
Qed.

(** X14: a mapping body with a string message and errors that flatten keeps
    under [_errors] the errors as they came, not flattened, and the message
    shown always ends with ": " and the text. *)
Theorem http_exception_with_errors_shown (resp : response) (m : dict) (base : string)
        (flat : dict) (sc reason : value) :
  readable resp = true ->
  dict_lookup "status_code" resp = Some sc ->
  dict_lookup "reason" resp = Some reason ->
  dict_get m "message" (VStr "") = VStr base ->
  truthy (dict_get m "errors" VNone) = true ->
  _flatten_error_dict (dict_get m "errors" VNone) "" = Ok flat ->
  let text := (base ++ nl) ++ join nl (map format_pair flat) in
  exists self,
    HTTPException_init resp (VDict m) = Ok self
    /\ field self "text" = Some (VStr text)
    /\ field self "_errors" = Some (dict_get m "errors" VNone)
    /\ inst_args self =
       [VStr (py_str sc ++ " " ++ py_str reason
                ++ " (error code: " ++ py_str (dict_get m "code" (VInt 0)) ++ ")"
                ++ ": " ++ text)].
Proof.
  intros Hresp Hsc Hreason Hbase Herrors Hflat text.
  destruct (set_status_readable
              (setattr (new_instance HTTPException) "response" (AResponse resp))
              resp Hresp) as [status Hstatus].
  rewrite http_exception_init_like.
  assert (Hlen : Nat.eqb (String.length text) 0 = false).
  { unfold text. destruct base; reflexivity. }
  eexists. split.
  - eapply init_like_after_text with (text := VStr text);
      [exact Hstatus
      | cbn [set_code_text]; rewrite Herrors, Hflat, Hbase; reflexivity
      | | reflexivity | | exact Hsc | exact Hreason | reflexivity].
    + now field_chain.
    + now field_chain.
  - rewrite Hlen. repeat split.
Qed.


(** X16: whenever [ConnectionClose] is built, its [code] is truthy, never
    0 and never [None], its [reason] is the empty string, and the message
    shown is "WebSocket closed with " followed by the code. *)
Theorem connection_close_attributes (socket : response) (code : value) (self : instance) :
  ConnectionClose_init socket code = Ok self ->
  inst_class self = ConnectionClose
  /\ field self "reason" = Some (VStr "")
  /\ exists kept,
       field self "code" = Some kept
       /\ truthy kept = true
       /\ inst_args self = [VStr ("WebSocket closed with " ++ py_str kept)].
Proof.
  unfold ConnectionClose_init. intros H.
  assert (Hkept : forall kept,
             truthy kept = true ->
             Ok (Exception_init
                   (setattr (setattr (new_instance ConnectionClose) "code" (AValue kept))
                      "reason" (AValue (VStr "")))
                   ("WebSocket closed with " ++ py_str kept)) = Ok self ->
             inst_class self = ConnectionClose
             /\ field self "reason" = Some (VStr "")
             /\ exists kept,
                  field self "code" = Some kept
                  /\ truthy kept = true
                  /\ inst_args self = [VStr ("WebSocket closed with " ++ py_str kept)]).
  { intros kept Hkept Hself. injection Hself as <-.
    split; [reflexivity |]. split; [reflexivity |]. exists kept. now repeat split. }
  destruct (truthy code) eqn:Hcode.
  - exact (Hkept code Hcode H).
  - destruct (getattr socket "close_code") as [cc |]; [| discriminate H].
    cbn [bind] in H. apply (Hkept (py_or cc (VInt (-1)))); [| exact H].
    unfold py_or. now destruct (truthy cc) eqn:Hcc.
Qed.

(** X17: which code [ConnectionClose] keeps.  A truthy [code] given by
    keyword is kept and the socket is not read.  With a falsy one ([None],
    the default, and also 0) the [close_code] of the socket is kept when
    truthy, and -1 when it is falsy; a socket without the attribute
    [close_code] makes the constructor raise [AttributeError]. *)
Theorem connection_close_code_choice (socket : response) (code : value) :
  (self <- ConnectionClose_init socket code ;; getfield self "code") =
  if truthy code then Ok code
  else match dict_lookup "close_code" socket with
       | Some close_code => Ok (if truthy close_code then close_code else VInt (-1))
       | None => Raise AttributeError
       end.
Proof.
  unfold ConnectionClose_init, getattr.
  destruct (truthy code); [reflexivity |].
  destruct (dict_lookup "close_code" socket) as [cc |]; reflexivity.
Qed.

End Constructors.

Lemma constructors_need_status_code_witness :
  @BaseErrors.HTTPException_init sample_runtime aiohttp_response (VStr "denied")
    = Raise AttributeError
  /\ @BaseErrors.Forbidden_init sample_runtime aiohttp_response (VStr "denied")
    = Raise AttributeError
  /\ @BaseErrors.ServerError_init sample_runtime aiohttp_response (VStr "denied")
    = Raise AttributeError
  /\ @BaseErrors.InvalidData_init sample_runtime aiohttp_response (VStr "denied")
    = Raise AttributeError
  /\ @BaseErrors.LoginFailure_init sample_runtime aiohttp_response (VStr "denied")
    = Raise AttributeError.
Proof.
  exact (@constructors_need_status_code sample_runtime aiohttp_response (VStr "denied") eq_refl).
Defined.

Lemma invalid_data_needs_status_witness :
  (exists e, @BaseErrors.InvalidData_init sample_runtime requests_response VNone = Raise e)
  /\ (exists e, @BaseErrors.LoginFailure_init sample_runtime requests_response VNone = Raise e).
Proof.
  exact (@invalid_data_needs_status sample_runtime requests_response VNone eq_refl).
Defined.

Lemma invalid_data_built_witness :
  (exists self,
      @BaseErrors.InvalidData_init sample_runtime
         [("status_code", VInt 0); ("status", VInt 401); ("reason", VStr "Unauthorized")]
         (VStr "bad token") = Ok self
      /\ BaseErrors.inst_class self = BaseErrors.InvalidData
      /\ BaseErrors.field self "status" = Some (VInt 401)
      /\ BaseErrors.field self "code" = Some (VInt 0)
      /\ BaseErrors.field self "text" = Some (VStr "bad token")
      /\ BaseErrors.inst_args self = [VStr "401 Unauthorized (error code: 0): bad token"])
  /\ (exists self,
        @BaseErrors.LoginFailure_init sample_runtime
           [("status_code", VInt 0); ("status", VInt 401); ("reason", VStr "Unauthorized")]
           (VStr "bad token") = Ok self
        /\ BaseErrors.inst_class self = BaseErrors.LoginFailure
        /\ BaseErrors.field self "status" = Some (VInt 401)
        /\ BaseErrors.field self "code" = Some (VInt 0)
        /\ BaseErrors.field self "text" = Some (VStr "bad token")
        /\ BaseErrors.inst_args self = [VStr "401 Unauthorized (error code: 0): bad token"]).
Proof.
  exact (@invalid_data_built sample_runtime
           [("status_code", VInt 0); ("status", VInt 401); ("reason", VStr "Unauthorized")]
           (VStr "bad token") (VInt 0) (VInt 401) (VStr "Unauthorized") 9%nat
           eq_refl eq_refl eq_refl eq_refl eq_refl).
Defined.

Lemma http_exception_plain_message_witness :
  exists self,
    @BaseErrors.HTTPException_init sample_runtime requests_response VNone = Ok self
    /\ BaseErrors.field self "code" = Some (VInt 0)
    /\ BaseErrors.field self "text" = Some (VStr "")
    /\ BaseErrors.hasattr self "_errors" = false
    /\ BaseErrors.inst_args self = [VStr "400 Bad Request (error code: 0)"].
Proof.
  exact (@http_exception_plain_message sample_runtime requests_response VNone
           (VInt 400) (VStr "Bad Request") 0%nat eq_refl eq_refl eq_refl eq_refl eq_refl).
Defined.

Lemma http_exception_attributes_witness :
  exists self,
    @BaseErrors.HTTPException_init sample_runtime
       [("status_code", VNone); ("status", VInt 0); ("reason", VStr "Bad Request")]
       (VList [VInt 1]) = Ok self
    /\ BaseErrors.inst_class self = BaseErrors.HTTPException
    /\ (exists status,
          BaseErrors.field self "status" = Some status
          /\ (truthy status = true \/ status = VInt 0))
    /\ (exists code, BaseErrors.field self "code" = Some code)
    /\ (exists text n, BaseErrors.field self "text" = Some text /\ py_len text = Ok n).
Proof.
  eexists. split; [reflexivity |].
  exact (@http_exception_attributes sample_runtime
           [("status_code", VNone); ("status", VInt 0); ("reason", VStr "Bad Request")]
           (VList [VInt 1]) _ eq_refl).
Defined.

Lemma http_exception_without_errors_witness :
  exists self,
    @BaseErrors.HTTPException_init sample_runtime requests_response
       (VDict [("code", VInt 10003); ("message", VStr "Unknown Channel"); ("errors", VDict [])])
    = Ok self
    /\ BaseErrors.field self "text" = Some (VStr "Unknown Channel")
    /\ BaseErrors.field self "code" = Some (VInt 10003)
    /\ BaseErrors.field self "_errors" = Some (VDict [])
    /\ BaseErrors.inst_args self = [VStr "400 Bad Request (error code: 10003): Unknown Channel"].
Proof.
  exact (@http_exception_without_errors sample_runtime requests_response
           [("code", VInt 10003); ("message", VStr "Unknown Channel"); ("errors", VDict [])]
           "Unknown Channel" (VInt 400) (VStr "Bad Request")
           eq_refl eq_refl eq_refl eq_refl eq_refl).
Defined.

Lemma http_exception_with_errors_shown_witness :
  exists self,
    @BaseErrors.HTTPException_init sample_runtime requests_response invalid_form_body = Ok self
    /\ BaseErrors.field self "text" =
       Some (VStr ("Invalid Form Body" ++ nl ++ "In username: too short"))
    /\ BaseErrors.field self "_errors" =
       Some (VDict [("username",
                     VDict [("_errors", VList [VDict [("message", VStr "too short")]])])])
    /\ BaseErrors.inst_args self =
       [VStr ("400 Bad Request (error code: 50035): Invalid Form Body" ++ nl
                ++ "In username: too short")].
Proof.
  exact (@http_exception_with_errors_shown sample_runtime requests_response
           [("code", VInt 50035); ("message", VStr "Invalid Form Body");
            ("errors", VDict [("username",
                               VDict [("_errors",
                                       VList [VDict [("message", VStr "too short")]])])])]
           "Invalid Form Body" [("username", VStr "too short")]
           (VInt 400) (VStr "Bad Request")
           eq_refl eq_refl eq_refl eq_refl eq_refl eq_refl).
Defined.


Lemma connection_close_attributes_witness :
  exists self,
    @BaseErrors.ConnectionClose_init sample_runtime [("close_code", VNone)] (VInt 0) = Ok self
    /\ BaseErrors.inst_class self = BaseErrors.ConnectionClose
    /\ BaseErrors.field self "reason" = Some (VStr "")
    /\ exists kept,
         BaseErrors.field self "code" = Some kept
         /\ truthy kept = true
         /\ BaseErrors.inst_args self =
            [VStr ("WebSocket closed with " ++ @py_str sample_runtime kept)].
Proof.
  eexists. split; [reflexivity |].
  exact (@connection_close_attributes sample_runtime [("close_code", VNone)] (VInt 0) _ eq_refl).
Defined.

(** ** The classes *)

Section Classes.

Import BaseErrors.

(** X18: what an [except] clause catches.  Every class of the file is a
    [ChatBotException].  The subclasses of [HTTPException] are [Forbidden]
    and [ServerError] and no other: [InvalidData] and [LoginFailure], which
    carry [status], [code] and [text] too, and [RateLimited] are not caught
    with it.  No class is both a [ClientException] and an [HTTPException],
    and being a subclass is reflexive, transitive and antisymmetric. *)
Theorem exception_hierarchy :
  (forall c, issubclass c ChatBotException = negb (pyclass_eqb c Exception))
  /\ (forall c, issubclass c HTTPException =
                match c with
                | HTTPException | Forbidden | ServerError => true
                | _ => false
                end)
  /\ (forall c, issubclass c ClientException =
                match c with
                | ClientException | InvalidData | LoginFailure | ConnectionClose => true
                | _ => false
                end)
  /\ (forall c, issubclass c ClientException && issubclass c HTTPException = false)
  /\ (forall c, issubclass c c = true)
  /\ (forall a b c, implb (issubclass a b && issubclass b c) (issubclass a c) = true)
  /\ (forall a b, implb (issubclass a b && issubclass b a) (pyclass_eqb a b) = true).
Proof.
  repeat split.
  - intros []; reflexivity.
  - intros []; reflexivity.
  - intros []; reflexivity.
  - intros []; reflexivity.
  - intros []; reflexivity.
  - intros [] [] []; reflexivity.
  - intros [] []; reflexivity.
Qed.

End Classes.

(** ** The constructor of [src/errors.py] *)

Section OldConstructor.

Context {rt : PyRuntime}.

(** X19: [HTTPException.__init__] of [src/errors.py] never returns on a
    mapping body whose [errors] are not empty: after the flattener it calls
    [errors.item()], which no dict has, so it raises whatever the response
    and the rest of the body. *)
Theorem old_http_exception_with_errors_raises (resp : response) (m : dict) :
  truthy (dict_get m "errors" VNone) = true ->
  exists e, Errors.HTTPException_init resp (VDict m) = Raise e.
Proof.
  intros Herrors. unfold Errors.HTTPException_init.
  destruct (getattr resp "status") as [status |]; [| eexists; reflexivity]. cbn [bind].
  rewrite Herrors.
  destruct (Errors._flatten_error_dict (dict_get m "errors" VNone) "") as [flat |];
    eexists; reflexivity.
Qed.

End OldConstructor.

Lemma old_http_exception_with_errors_raises_witness :
  exists e,
    @Errors.HTTPException_init sample_runtime aiohttp_response invalid_form_body = Raise e.
Proof.
  exact (@old_http_exception_with_errors_raises sample_runtime aiohttp_response
           [("code", VInt 50035); ("message", VStr "Invalid Form Body");
            ("errors", VDict [("username",
                               VDict [("_errors",
                                       VList [VDict [("message", VStr "too short")]])])])]
           eq_refl).
Defined.
